(** * MyInfoGovClient: the signed-request protocol of myinfo-gov-client

    A shallow embedding of [MyInfoGovClient] (constructor, [createRedirectURL],
    [getPerson], [_sendPersonRequest], [_extractUinFin], [_getAccessToken],
    [_generateAuthHeader]) together with the parts of the JavaScript runtime
    and of the libraries (qs, axios, jsonwebtoken, crypto) that the class
    touches.

    Conventions.
    - A JavaScript string is a [string]: a sequence of 8-bit character codes
      (exact for ASCII; other text is carried as its UTF-8 bytes, which is
      also what the percent-encoder of qs emits).
    - An object used as a string-to-string map is an association list whose
      order is the enumeration order of its keys ([Obj]); a well-formed one
      has no repeated key. Keys are enumerated in insertion order: keys that
      spell an array index, which an engine enumerates first, get no special
      treatment.
    - A promise is run to completion: an [async] method is a computation in
      the monad [M], a rejection is a [Throw]. *)

From Stdlib Require Import String Ascii List ZArith NArith Lia Bool.
From Stdlib Require Import Sorting.Sorted Sorting.Permutation.
From Stdlib Require Import Structures.OrdersEx Classes.RelationClasses.
From Stdlib Require Import DecimalString.
Import ListNotations.
Open Scope string_scope.

(* ================================================================= *)
(** ** Strings *)

(** The double-quote character, as it appears inside template literals. *)
Definition dquote : string := String (ascii_of_nat 34) EmptyString.

(** [String(n)] for an integral number. *)
Definition Number_toString (z : Z) : string :=
  NilZero.string_of_int (Z.to_int z).

(** [String.prototype.toUpperCase] on ASCII text. *)
Definition upper_ascii (c : ascii) : ascii :=
  let n := N_of_ascii c in
  if ((97 <=? n) && (n <=? 122))%N then ascii_of_N (n - 32) else c.

Fixpoint toUpperCase (s : string) : string :=
  match s with
  | EmptyString => EmptyString
  | String c r => String (upper_ascii c) (toUpperCase r)
  end.

(** [s.replace(/\n$/, '')]: drops one line feed when it is the last
    character of [s]. *)
Definition is_lf (c : ascii) : bool := (N_of_ascii c =? 10)%N.

Fixpoint strip_trailing_newline (s : string) : string :=
  match s with
  | EmptyString => EmptyString
  | String c r =>
      match r with
      | EmptyString => if is_lf c then EmptyString else s
      | String _ _ => String c (strip_trailing_newline r)
      end
  end.

(** [Array.prototype.join()] on an array of strings (default separator). *)
Definition Array_join (xs : list string) : string := String.concat "," xs.

(** *** Base64 ([Buffer.prototype.toString('base64')]) *)

Definition base64_alphabet : list ascii :=
  list_ascii_of_string
    "ABCDEFGHIJKLMNOPQRSTUVWXYZabcdefghijklmnopqrstuvwxyz0123456789+/".

Definition b64 (n : N) : ascii := nth (N.to_nat n) base64_alphabet "A"%char.

Fixpoint base64 (bs : list N) : string :=
  match bs with
  | [] => EmptyString
  | a :: r1 =>
      match r1 with
      | [] =>
          String (b64 (a / 4)) (String (b64 ((a mod 4) * 16)) "==")
      | b :: r2 =>
          match r2 with
          | [] =>
              String (b64 (a / 4))
                (String (b64 ((a mod 4) * 16 + b / 16))
                   (String (b64 ((b mod 16) * 4)) "="))
          | c :: r3 =>
              String (b64 (a / 4))
                (String (b64 ((a mod 4) * 16 + b / 16))
                   (String (b64 ((b mod 16) * 4 + c / 64))
                      (String (b64 (c mod 64)) (base64 r3))))
          end
      end
  end%N.

(* ================================================================= *)
(** ** JavaScript values, errors and results *)

#[local] Set Warnings "-register-all".

Inductive JsVal : Type :=
| VUndefined
| VNull
| VBool (b : bool)
| VNum (z : Z)                         (* integral numbers *)
| VStr (s : string)
| VArr (items : list JsVal)
| VObj (props : list (string * JsVal))
| VFun (name : string).                (* a built-in function object *)

#[local] Set Warnings "register-all".

(** ToBoolean. *)
Definition truthy (v : JsVal) : bool :=
  match v with
  | VUndefined | VNull => false
  | VBool b => b
  | VNum z => negb (z =? 0)%Z
  | VStr s => negb (s =? "")
  | VArr _ | VObj _ | VFun _ => true
  end.

(** [a || b]. *)
Definition js_or (a b : JsVal) : JsVal := if truthy a then a else b.

(** ToString, as applied by a template literal. *)
Fixpoint js_toString (v : JsVal) : string :=
  match v with
  | VUndefined => "undefined"
  | VNull => "null"
  | VBool true => "true"
  | VBool false => "false"
  | VNum z => Number_toString z
  | VStr s => s
  | VArr items =>
      (fix join (l : list JsVal) : string :=
         match l with
         | [] => EmptyString
         | x :: r =>
             let sx := match x with
                       | VUndefined | VNull => EmptyString
                       | _ => js_toString x
                       end in
             match r with
             | [] => sx
             | _ :: _ => sx ++ "," ++ join r
             end
         end) items
  | VObj _ => "[object Object]"
  | VFun name => "function " ++ name ++ "() { [native code] }"
  end.

(** Own-property lookup in a property list. *)
Fixpoint assoc {A : Type} (k : string) (l : list (string * A)) : option A :=
  match l with
  | [] => None
  | (k', v) :: r => if String.eqb k' k then Some v else assoc k r
  end.

(** The properties every ordinary object inherits from [Object.prototype]. *)
Definition Object_prototype : list (string * JsVal) :=
  [ ("constructor", VFun "Object");
    ("__defineGetter__", VFun "__defineGetter__");
    ("__defineSetter__", VFun "__defineSetter__");
    ("hasOwnProperty", VFun "hasOwnProperty");
    ("__lookupGetter__", VFun "__lookupGetter__");
    ("__lookupSetter__", VFun "__lookupSetter__");
    ("isPrototypeOf", VFun "isPrototypeOf");
    ("propertyIsEnumerable", VFun "propertyIsEnumerable");
    ("toString", VFun "toString");
    ("valueOf", VFun "valueOf");
    ("__proto__", VObj []);
    ("toLocaleString", VFun "toLocaleString") ].

(** [o[k]] on an object literal: own properties first, then the prototype. *)
Definition obj_lookup (own : list (string * JsVal)) (k : string) : JsVal :=
  match assoc k own with
  | Some v => v
  | None =>
      match assoc k Object_prototype with
      | Some v => v
      | None => VUndefined
      end
  end.

(** A thrown [Error]: its [name] and [message]. *)
Record JsError : Type := mkJsError { err_name : string; err_message : string }.

(** [new Error(message)]. *)
Definition Error (message : string) : JsError := mkJsError "Error" message.

(** [Error.prototype.toString], which a template literal applies to [err]. *)
Definition err_toString (e : JsError) : string :=
  if err_name e =? "" then err_message e
  else if err_message e =? "" then err_name e
  else err_name e ++ ": " ++ err_message e.

Inductive Result (A : Type) : Type :=
| Ok (a : A)
| Throw (e : JsError).
Arguments Ok {A} a.
Arguments Throw {A} e.

(** [v.k] on the body of a response: a [TypeError] on [null] and
    [undefined], the own property of an object (an inherited one otherwise),
    [undefined] on a primitive for the names used here. *)
Definition js_prop (v : JsVal) (k : string) : Result JsVal :=
  match v with
  | VUndefined =>
      Throw (mkJsError "TypeError"
               ("Cannot read property '" ++ k ++ "' of undefined"))
  | VNull =>
      Throw (mkJsError "TypeError"
               ("Cannot read property '" ++ k ++ "' of null"))
  | VObj props => Ok (obj_lookup props k)
  | _ => Ok VUndefined
  end.

(* ================================================================= *)
(** ** String-keyed maps in enumeration order *)

Definition Obj : Type := list (string * string).

Definition keys (o : Obj) : list string := map fst o.

(** [{...o, k: v}]: an existing key keeps its place and takes the new
    value, a new key goes last. *)
Fixpoint obj_set (k v : string) (o : Obj) : Obj :=
  match o with
  | [] => [(k, v)]
  | (k', v') :: r =>
      if String.eqb k' k then (k, v) :: r else (k', v') :: obj_set k v r
  end.

(* ================================================================= *)
(** ** qs.stringify on a flat object of strings *)

Definition hex_digit (n : N) : ascii :=
  nth (N.to_nat n) (list_ascii_of_string "0123456789ABCDEF") "0"%char.

(** [hexTable[c]] of qs: a percent sign and two upper-case hex digits. *)
Definition hexTable (c : ascii) : string :=
  let n := N_of_ascii c in
  String "%" (String (hex_digit (n / 16)) (String (hex_digit (n mod 16)) "")).

(** The characters the encoder of qs leaves alone (RFC 3986 format):
    [-], [.], [_], [~], digits and letters. *)
Definition qs_unreserved (c : ascii) : bool :=
  let n := N_of_ascii c in
  ((n =? 45) || (n =? 46) || (n =? 95) || (n =? 126)
   || ((48 <=? n) && (n <=? 57))
   || ((65 <=? n) && (n <=? 90))
   || ((97 <=? n) && (n <=? 122)))%N.

Fixpoint qs_encode (s : string) : string :=
  match s with
  | EmptyString => EmptyString
  | String c r =>
      (if qs_unreserved c then String c EmptyString else hexTable c)
        ++ qs_encode r
  end.

(** [qs.stringify(obj, { encode })]: one [key=value] per entry in
    enumeration order, joined by an ampersand; keys and values go through
    the encoder only when [encode] is on (the default). *)
Definition qs_stringify (obj : Obj) (encode : bool) : string :=
  let enc := if encode then qs_encode else (fun s => s) in
  String.concat "&" (map (fun kv => enc (fst kv) ++ "=" ++ enc (snd kv)) obj).

(* ================================================================= *)
(** ** ./util *)

Definition key_lt (a b : string) : Prop := String_as_OT.lt a b.

Definition key_leb (a b : string) : bool :=
  match String_as_OT.compare a b with
  | Gt => false
  | _ => true
  end.

Fixpoint insert_entry (e : string * string) (o : Obj) : Obj :=
  match o with
  | [] => [e]
  | e' :: r =>
      if key_leb (fst e) (fst e') then e :: o else e' :: insert_entry e r
  end.

(** Modelled from the spec: [sortObjKeys] of ./util, which is not among the
    sources. "the same mapping re-expressed with keys sorted in ascending
    lexicographic order (by character code), values unchanged". *)
Definition sortObjKeys (o : Obj) : Obj := fold_right insert_entry [] o.

(** Modelled from the spec: [objToSearchParams] of ./util, which is not
    among the sources. The form body carries the entries of the object. *)
Definition objToSearchParams (o : Obj) : Obj := o.

(** Modelled from the spec: [hasProp] of ./util, which is not among the
    sources. "an object claim set lacking a string-typed subject field":
    the object has the field. *)
Definition hasProp (props : list (string * JsVal)) (k : string) : bool :=
  match assoc k props with
  | Some _ => true
  | None => false
  end.

(* ================================================================= *)
(** ** Configuration and construction *)

(** [MyInfoMode]. *)
Inductive MyInfoMode : Type := Dev | Staging | Production.

Definition MyInfoMode_value (m : MyInfoMode) : string :=
  match m with
  | Dev => "dev"
  | Staging => "stg"
  | Production => "prod"
  end.

Definition BASE_URL : list (string * JsVal) :=
  [ (MyInfoMode_value Dev, VStr "http://localhost:5156/myinfo/v3");
    (MyInfoMode_value Staging,
      VStr "https://myinfosgstg.api.gov.sg/gov/test/v3");
    (MyInfoMode_value Production, VStr "https://myinfosg.api.gov.sg/gov/v3") ].

(** ToBoolean on a string: only the empty string is falsy. *)
Definition str_truthy (s : string) : bool := negb (s =? "").

(** [string | Buffer]. *)
Inductive KeyInput : Type :=
| KeyString (s : string)
| KeyBuffer (bytes : string).

(** ToBoolean on a key: a Buffer is an object, hence never falsy. *)
Definition key_truthy (k : KeyInput) : bool :=
  match k with
  | KeyString s => str_truthy s
  | KeyBuffer _ => true
  end.

Definition key_toString (k : KeyInput) : string :=
  match k with
  | KeyString s => s
  | KeyBuffer bytes => bytes
  end.

Module Config.
(** [IMyInfoConfig]; [mode] is whatever string the caller passes, or
    absent. *)
Record IMyInfoConfig : Type := {
  clientId : string;
  clientSecret : string;
  singpassEserviceId : string;
  redirectEndpoint : string;
  clientPrivateKey : KeyInput;
  myInfoPublicKey : KeyInput;
  mode : option string
}.
End Config.

Module AuthRequest.
(** [IAuthRequest]. *)
Record IAuthRequest : Type := {
  purpose : string;
  requestedAttributes : list string;
  relayState : string;
  singpassEserviceId : option string;
  redirectEndpoint : option string
}.
End AuthRequest.

(** [enum Endpoint]. *)
Inductive Endpoint : Type := Authorise | Token | Person.

Definition Endpoint_value (e : Endpoint) : string :=
  match e with
  | Authorise => "/authorise"
  | Token => "/token"
  | Person => "/person"
  end.

(** The fields of a [MyInfoGovClient] instance. [baseAPIUrl] holds whatever
    the lookup in [BASE_URL] produced. *)
Record MyInfoGovClient : Type := {
  clientId : string;
  clientSecret : string;
  redirectEndpoint : string;
  clientPrivateKey : string;
  myInfoPublicKey : string;
  singpassEserviceId : string;
  mode : string;
  baseAPIUrl : JsVal
}.

Definition missing_parameters_message : string :=
  "Missing required parameter(s) in constructor: clientId, clientSecret, singpassEserviceId, redirectEndpoint, clientPrivateKey, myInfoPublicKey".

(** [x ?? d] for an optional string. *)
Definition nullish (x : option string) (d : string) : string :=
  match x with
  | Some v => v
  | None => d
  end.

(** [new MyInfoGovClient(config)]. *)
Definition constructor (config : Config.IMyInfoConfig)
  : Result MyInfoGovClient :=
  if negb (str_truthy (Config.clientId config))
     || negb (str_truthy (Config.clientSecret config))
     || negb (str_truthy (Config.singpassEserviceId config))
     || negb (str_truthy (Config.redirectEndpoint config))
     || negb (key_truthy (Config.clientPrivateKey config))
     || negb (key_truthy (Config.myInfoPublicKey config))
  then Throw (Error missing_parameters_message)
  else
    (* mode || MyInfoMode.Production *)
    let this_mode :=
      match Config.mode config with
      | Some m => if str_truthy m then m else MyInfoMode_value Production
      | None => MyInfoMode_value Production
      end in
    Ok {| clientId := Config.clientId config;
          clientSecret := Config.clientSecret config;
          redirectEndpoint := Config.redirectEndpoint config;
          mode := this_mode;
          singpassEserviceId := Config.singpassEserviceId config;
          clientPrivateKey :=
            strip_trailing_newline
              (key_toString (Config.clientPrivateKey config));
          myInfoPublicKey :=
            strip_trailing_newline
              (key_toString (Config.myInfoPublicKey config));
          baseAPIUrl :=
            js_or (obj_lookup BASE_URL this_mode)
                  (obj_lookup BASE_URL "prod") |}.


(** [createRedirectURL]. *)
Definition createRedirectURL (this : MyInfoGovClient)
    (req : AuthRequest.IAuthRequest) : string :=
  let queryParams : Obj :=
    [ ("purpose", AuthRequest.purpose req);
      ("attributes", Array_join (AuthRequest.requestedAttributes req));
      ("state", AuthRequest.relayState req);
      ("client_id", clientId this);
      ("redirect_uri",
        nullish (AuthRequest.redirectEndpoint req) (redirectEndpoint this));
      ("sp_esvcId",
        nullish (AuthRequest.singpassEserviceId req)
                (singpassEserviceId this)) ] in
  js_toString (baseAPIUrl this) ++ Endpoint_value Authorise ++ "?"
    ++ qs_stringify queryParams true.

(* ================================================================= *)
(** ** The outside world: clock, entropy, network *)

Inductive Method : Type := GET | POST.

Definition Method_value (m : Method) : string :=
  match m with
  | GET => "GET"
  | POST => "POST"
  end.

(** What axios is asked to send. [req_query] is the serialised [params] of
    a GET, [req_body] the form body of a POST. *)
Record Request : Type := {
  req_method : Method;
  req_url : string;
  req_headers : Obj;
  req_query : option string;
  req_body : option Obj
}.

Inductive HttpOutcome : Type :=
| NetworkError (e : JsError)
| Response (status : Z) (data : JsVal).

(** The state threaded through a run: how often the clock and the random
    source were read, and the requests sent so far (oldest first). *)
Record World : Type := {
  clock_reads : nat;
  entropy_reads : nat;
  sent : list Request
}.

Definition initial_world : World :=
  {| clock_reads := 0; entropy_reads := 0; sent := [] |}.

(** Computations that read the world and either return or throw. *)
Definition M (A : Type) : Type := World -> Result A * World.

Definition ret {A : Type} (a : A) : M A := fun w => (Ok a, w).

Definition throw {A : Type} (e : JsError) : M A := fun w => (Throw e, w).

Definition bind {A B : Type} (m : M A) (k : A -> M B) : M B :=
  fun w =>
    match m w with
    | (Ok a, w') => k a w'
    | (Throw e, w') => (Throw e, w')
    end.

(** [try { m } catch (err) { h err }]. *)
Definition try_catch {A : Type} (m : M A) (h : JsError -> M A) : M A :=
  fun w =>
    match m w with
    | (Ok a, w') => (Ok a, w')
    | (Throw e, w') => h e w'
    end.

(** A synchronous call that may throw. *)
Definition lift {A : Type} (r : Result A) : M A := fun w => (r, w).

Notation "x <- m ;; k" := (bind m (fun x => k))
  (at level 61, m at next level, right associativity).

(** axios' default [validateStatus]. *)
Definition validateStatus (status : Z) : bool :=
  ((200 <=? status) && (status <? 300))%Z.

(** The rejection axios builds for a status outside 2xx. *)
Definition axios_status_error (status : Z) : JsError :=
  Error ("Request failed with status code " ++ Number_toString status).

(** [typeof] of what [verify] hands back ([string | object]). *)
Inductive JwtPayload : Type :=
| PayloadString (s : string)
| PayloadObject (props : list (string * JsVal)).

Definition typeof_payload (p : JwtPayload) : string :=
  match p with
  | PayloadString _ => "string"
  | PayloadObject _ => "object"
  end.

(** [hasProp(decoded, k) && typeof decoded[k] === 'string'], with the value
    of the property when the test passes. *)
Definition string_prop (decoded : JwtPayload) (k : string) : option string :=
  match decoded with
  | PayloadString _ => None
  | PayloadObject props =>
      if hasProp props k then
        match obj_lookup props k with
        | VStr s => Some s
        | _ => None
        end
      else None
  end.

(* ================================================================= *)
(** ** Request signing: the pure part of [_generateAuthHeader] *)

(** [sortObjKeys({...urlParams, signature_method, nonce, timestamp, app_id})]. *)
Definition mergedParams (this : MyInfoGovClient) (urlParams : Obj)
    (timestamp nonce : string) : Obj :=
  obj_set "app_id" (clientId this)
    (obj_set "timestamp" timestamp
       (obj_set "nonce" nonce
          (obj_set "signature_method" "RS256" urlParams))).

Definition authParams (this : MyInfoGovClient) (urlParams : Obj)
    (timestamp nonce : string) : Obj :=
  sortObjKeys (mergedParams this urlParams timestamp nonce).

(** [`${method.toUpperCase()}&${url}&${paramString}`] with
    [paramString = qs.stringify(authParams, { encode: false })]. *)
Definition baseString (this : MyInfoGovClient) (method : Method)
    (url : string) (urlParams : Obj) (timestamp nonce : string) : string :=
  let paramString :=
    qs_stringify (authParams this urlParams timestamp nonce) false in
  toUpperCase (Method_value method) ++ "&" ++ url ++ "&" ++ paramString.

(** The four keys the signer writes itself. *)
Definition protocol_key (k : string) : bool :=
  (k =? "signature_method") || (k =? "nonce") || (k =? "timestamp")
  || (k =? "app_id").

(** A caller's parameters without the entries under those keys. *)
Definition own_params (urlParams : Obj) : Obj :=
  filter (fun kv => negb (protocol_key (fst kv))) urlParams.


(** The template literal returned by [_generateAuthHeader]. *)
Definition PKI_SIGN (timestamp nonce app_id signature : string) : string :=
  "PKI_SIGN timestamp=" ++ dquote ++ timestamp ++ dquote
    ++ ",nonce=" ++ dquote ++ nonce ++ dquote
    ++ ",app_id=" ++ dquote ++ app_id ++ dquote
    ++ ",signature_method=" ++ dquote ++ "RS256" ++ dquote
    ++ ",signature=" ++ dquote ++ signature ++ dquote.

(* ================================================================= *)
(** ** Vocabulary for the properties of the text the client builds *)

(** The line feed, as a one-character string. *)
Definition LF : string := String (ascii_of_nat 10) EmptyString.


(** How often a character occurs in a string. *)
Fixpoint count_char (c : ascii) (s : string) : nat :=
  match s with
  | EmptyString => 0
  | String x r => (if Ascii.eqb x c then 1 else 0) + count_char c r
  end.

(** Whether every character of a string passes a test. *)
Fixpoint string_forall (p : ascii -> bool) (s : string) : bool :=
  match s with
  | EmptyString => true
  | String x r => p x && string_forall p r
  end.

(** The characters of a base64 text: the alphabet and the padding sign. *)
Definition base64_char (c : ascii) : bool :=
  existsb (Ascii.eqb c) base64_alphabet || Ascii.eqb c "="%char.

(** The characters of an encoded query string: what the encoder of qs
    leaves alone, the percent sign of its escapes, and the two separators. *)
Definition query_char (c : ascii) : bool :=
  qs_unreserved c || Ascii.eqb c "%"%char || Ascii.eqb c "&"%char
  || Ascii.eqb c "="%char.

(** The three base URLs of [BASE_URL]. *)
Definition base_urls : list string :=
  [ "http://localhost:5156/myinfo/v3";
    "https://myinfosgstg.api.gov.sg/gov/test/v3";
    "https://myinfosg.api.gov.sg/gov/v3" ].

(* ================================================================= *)
(** ** A sample deployment, to run the methods on concrete inputs *)

Module Sample.

Definition config : Config.IMyInfoConfig :=
  {| Config.clientId := "APP-1";
     Config.clientSecret := "s3cret";
     Config.singpassEserviceId := "SVC1";
     Config.redirectEndpoint := "https://app.example/cb";
     Config.clientPrivateKey := KeyString "client-private-key";
     Config.myInfoPublicKey := KeyString "myinfo-public-key";
     Config.mode := None |}.


(** The same configuration with a mode that is none of dev, stg, prod. *)
Definition config_with_mode (m : string) : Config.IMyInfoConfig :=
  {| Config.clientId := "APP-1";
     Config.clientSecret := "s3cret";
     Config.singpassEserviceId := "SVC1";
     Config.redirectEndpoint := "https://app.example/cb";
     Config.clientPrivateKey := KeyString "client-private-key";
     Config.myInfoPublicKey := KeyString "myinfo-public-key";
     Config.mode := Some m |}.

Definition authRequest : AuthRequest.IAuthRequest :=
  {| AuthRequest.purpose := "demo";
     AuthRequest.requestedAttributes := ["name"; "email"];
     AuthRequest.relayState := "xyz";
     AuthRequest.singpassEserviceId := None;
     AuthRequest.redirectEndpoint := None |}.

Definition client : MyInfoGovClient :=
  {| clientId := "APP-1";
     clientSecret := "s3cret";
     redirectEndpoint := "https://app.example/cb";
     clientPrivateKey := "client-private-key";
     myInfoPublicKey := "myinfo-public-key";
     singpassEserviceId := "SVC1";
     mode := "prod";
     baseAPIUrl := VStr "https://myinfosg.api.gov.sg/gov/v3" |}.

Definition Date_now (n : nat) : Z := 1700000000000 + Z.of_nat n.

Definition random_byte (n j : nat) : ascii := ascii_of_nat (7 * n + j).

Definition sign (key data : string) : Result string := Ok "c2lnbmF0dXJl".

(** Token [T1] is signed with RS256, token [H1] with HS256. *)
Definition jws_alg (token : string) : option string :=
  if token =? "T1" then Some "RS256"
  else if token =? "H1" then Some "HS256"
  else None.

Definition verifyJwt (jwt : JsVal) (key : string) (algorithms : list string)
  : Result JwtPayload :=
  match jwt with
  | VStr token =>
      match jws_alg token with
      | Some alg =>
          if existsb (String.eqb alg) algorithms then
            Ok (PayloadObject [("sub", VStr "S0000001X")])
          else Throw (mkJsError "JsonWebTokenError" "invalid algorithm")
      | None => Throw (mkJsError "JsonWebTokenError" "jwt malformed")
      end
  | _ => Throw (mkJsError "JsonWebTokenError" "jwt must be provided")
  end.

Definition person : JsVal :=
  VObj [("name", VObj [("value", VStr "Tan Ah Kow")])].

Definition network (n : nat) (r : Request) : HttpOutcome :=
  match req_method r with
  | POST => Response 200 (VObj [("access_token", VStr "T1")])
  | GET => Response 200 person
  end.

(** A token endpoint that answers 200 with a body that has no
    [access_token]. *)
Definition network_without_token (n : nat) (r : Request) : HttpOutcome :=
  Response 200 (VObj [("token_type", VStr "Bearer")]).

(** The same configuration with both keys ending in a line feed, as a PEM
    file read from disk does. *)
Definition config_pem : Config.IMyInfoConfig :=
  {| Config.clientId := "APP-1";
     Config.clientSecret := "s3cret";
     Config.singpassEserviceId := "SVC1";
     Config.redirectEndpoint := "https://app.example/cb";
     Config.clientPrivateKey := KeyString ("client-private-key" ++ LF);
     Config.myInfoPublicKey := KeyBuffer ("myinfo-public-key" ++ LF);
     Config.mode := Some "stg" |}.

(** A token endpoint that answers 204 with no body. *)
Definition network_null_body (n : nat) (r : Request) : HttpOutcome :=
  Response 204 VNull.

End Sample.

(* ================================================================= *)
(** ** The methods that talk to the outside world *)

Section Runtime.

(** [Date.now()]: the number returned by the n-th read of the clock. *)
Variable Date_now : nat -> Z.

(** [crypto.randomBytes]: byte [j] of the n-th read of the source. *)
Variable random_byte : nat -> nat -> ascii.

(** [crypto.createSign('RSA-SHA256').update(data).sign(key, 'base64')]. *)
Variable RSA_SHA256_sign : string -> string -> Result string.

(** [verify] of jsonwebtoken: token, key, accepted algorithms. *)
Variable verifyJwt : JsVal -> string -> list string -> Result JwtPayload.

(** The network: what comes back for the n-th request sent. *)
Variable network : nat -> Request -> HttpOutcome.

(** The [alg] field in the header of a token, when the token decodes. *)
Variable jws_alg : string -> option string.

(** The contract of the [algorithms] option of [verify]: a token is
    accepted only when the [alg] of its header is one of the listed
    algorithms. *)
Hypothesis verifyJwt_algorithms :
  forall token key algorithms decoded,
    verifyJwt (VStr token) key algorithms = Ok decoded ->
    exists alg, jws_alg token = Some alg /\ In alg algorithms.

Definition now : M Z :=
  fun w =>
    (Ok (Date_now (clock_reads w)),
     {| clock_reads := S (clock_reads w);
        entropy_reads := entropy_reads w;
        sent := sent w |}).

Definition randomBytes (n : nat) : M (list N) :=
  fun w =>
    (Ok (map (fun j => N_of_ascii (random_byte (entropy_reads w) j))
            (seq 0 n)),
     {| clock_reads := clock_reads w;
        entropy_reads := S (entropy_reads w);
        sent := sent w |}).

(** axios: the request is sent; the promise resolves with the body when
    the status passes [validateStatus] and rejects otherwise. *)
Definition axios (r : Request) : M JsVal :=
  fun w =>
    let w' := {| clock_reads := clock_reads w;
                 entropy_reads := entropy_reads w;
                 sent := sent w ++ [r] |} in
    match network (length (sent w)) r with
    | NetworkError e => (Throw e, w')
    | Response status data =>
        if validateStatus status then (Ok data, w')
        else (Throw (axios_status_error status), w')
    end.

Definition _generateAuthHeader (this : MyInfoGovClient) (method : Method)
    (url : string) (urlParams : Obj) : M string :=
  t <- now ;;
  let timestamp := Number_toString t in
  bytes <- randomBytes 32 ;;
  let nonce := base64 bytes in
  signature <-
    lift (RSA_SHA256_sign (clientPrivateKey this)
            (baseString this method url urlParams timestamp nonce)) ;;
  ret (PKI_SIGN timestamp nonce (clientId this) signature).

Definition _extractUinFin (this : MyInfoGovClient) (jwt : JsVal)
  : Result string :=
  match verifyJwt jwt (myInfoPublicKey this) ["RS256"] with
  | Throw e => Throw e
  | Ok decoded =>
      if negb (typeof_payload decoded =? "object") then
        Throw (Error "JWT returned from MyInfo had unexpected shape")
      else
        match string_prop decoded "sub" with
        | Some sub => Ok sub
        | None =>
            Throw (Error "JWT returned from MyInfo did not contain UIN/FIN")
        end
  end.

Definition postParams (this : MyInfoGovClient) (authCode : string) : Obj :=
  [ ("grant_type", "authorization_code");
    ("code", authCode);
    ("redirect_uri", redirectEndpoint this);
    ("client_id", clientId this);
    ("client_secret", clientSecret this) ].

Definition postUrl (this : MyInfoGovClient) : string :=
  js_toString (baseAPIUrl this) ++ Endpoint_value Token.

Definition _getAccessToken (this : MyInfoGovClient) (authCode : string)
  : M JsVal :=
  authorization <-
    _generateAuthHeader this POST (postUrl this) (postParams this authCode) ;;
  let headers : Obj :=
    [ ("Content-Type", "application/x-www-form-urlencoded");
      ("Cache-Control", "no-cache");
      ("Authorization", authorization) ] in
  data <-
    axios {| req_method := POST;
             req_url := postUrl this;
             req_headers := headers;
             req_query := None;
             req_body :=
               Some (objToSearchParams (postParams this authCode)) |} ;;
  lift (js_prop data "access_token").

Definition personUrl (this : MyInfoGovClient) (uinFin : string) : string :=
  js_toString (baseAPIUrl this) ++ Endpoint_value Person
    ++ "/" ++ uinFin ++ "/".

Definition personParams (this : MyInfoGovClient)
    (requestedAttributes : list string) : Obj :=
  [ ("client_id", clientId this);
    ("attributes", Array_join requestedAttributes) ].

Definition _sendPersonRequest (this : MyInfoGovClient) (accessToken : JsVal)
    (requestedAttributes : list string) (uinFin : option string)
  : M JsVal :=
  definedUinFin <-
    match uinFin with
    | Some u => ret u
    | None => lift (_extractUinFin this accessToken)
    end ;;
  let url := personUrl this definedUinFin in
  let params := personParams this requestedAttributes in
  paramsAuthHeader <- _generateAuthHeader this GET url params ;;
  let headers : Obj :=
    [ ("Cache-Control", "no-cache");
      ("Authorization",
        paramsAuthHeader ++ ",Bearer " ++ js_toString accessToken) ] in
  axios {| req_method := GET;
           req_url := url;
           req_headers := headers;
           req_query := Some (qs_stringify params true);
           req_body := None |}.

Definition token_stage_message (err : JsError) : string :=
  "The following error occurred while retrieving the access token: "
    ++ err_toString err.

Definition decode_stage_message (err : JsError) : string :=
  "The following error occurred while decoding the token from MyInfo: "
    ++ err_toString err.

Definition person_stage_message (err : JsError) : string :=
  "The following error occurred while calling the Person API: "
    ++ err_toString err.

(** [getPerson]; the result is the pair [{ accessToken, data }]. *)
Definition getPerson (this : MyInfoGovClient) (authCode : string)
    (requestedAttributes : list string) : M (JsVal * JsVal) :=
  accessToken <-
    try_catch (_getAccessToken this authCode)
      (fun err => throw (Error (token_stage_message err))) ;;
  uinFin <-
    try_catch (lift (_extractUinFin this accessToken))
      (fun err => throw (Error (decode_stage_message err))) ;;
  data <-
    try_catch
      (_sendPersonRequest this accessToken requestedAttributes (Some uinFin))
      (fun err => throw (Error (person_stage_message err))) ;;
  ret (accessToken, data).


(** What one run of [_generateAuthHeader] reads from the world, and the
    world it leaves. *)
Definition timestamp_at (w : World) : string :=
  Number_toString (Date_now (clock_reads w)).

Definition nonce_at (w : World) : string :=
  base64 (map (fun j => N_of_ascii (random_byte (entropy_reads w) j))
            (seq 0 32)).

Definition after_signing (w : World) : World :=
  {| clock_reads := S (clock_reads w);
     entropy_reads := S (entropy_reads w);
     sent := sent w |}.

Definition after_request (w : World) (r : Request) : World :=
  {| clock_reads := clock_reads w;
     entropy_reads := entropy_reads w;
     sent := sent w ++ [r] |}.

(** The request [_getAccessToken] hands to axios once the header is
    signed. *)
Definition token_request (this : MyInfoGovClient) (authCode : string)
    (authorization : string) : Request :=
  {| req_method := POST;
     req_url := postUrl this;
     req_headers :=
       [ ("Content-Type", "application/x-www-form-urlencoded");
         ("Cache-Control", "no-cache");
         ("Authorization", authorization) ];
     req_query := None;
     req_body := Some (objToSearchParams (postParams this authCode)) |}.

(** The request [_sendPersonRequest] hands to axios once the header is
    signed. *)
Definition person_request (this : MyInfoGovClient) (accessToken : JsVal)
    (requestedAttributes : list string) (uinFin : string)
    (paramsAuthHeader : string) : Request :=
  {| req_method := GET;
     req_url := personUrl this uinFin;
     req_headers :=
       [ ("Cache-Control", "no-cache");
         ("Authorization",
           paramsAuthHeader ++ ",Bearer " ++ js_toString accessToken) ];
     req_query :=
       Some (qs_stringify (personParams this requestedAttributes) true);
     req_body := None |}.

(** How axios settles a request sent from world [w]. *)
Definition settle (w : World) (r : Request) : Result JsVal :=
  match network (length (sent w)) r with
  | NetworkError e => Throw e
  | Response status data =>
      if validateStatus status then Ok data
      else Throw (axios_status_error status)
  end.

(* =============================================================== *)
(** ** Canonical order of parameters *)


Lemma key_leb_false a b : key_leb a b = false -> key_lt b a.
Proof.
unfold key_leb, key_lt. destruct (String_as_OT.compare_spec a b); congruence.
Qed.

Lemma key_leb_true a b : key_leb a b = true -> a = b \/ key_lt a b.
Proof.
unfold key_leb, key_lt. destruct (String_as_OT.compare_spec a b); auto; discriminate.
Qed.

(** The order on keys is the lexicographic one on character codes. *)
Lemma key_lt_character_codes a s b t :
  key_lt (String a s) (String b t) <->
  (N_of_ascii a < N_of_ascii b)%N \/ (a = b /\ key_lt s t).
Proof using Type.
  unfold key_lt, String_as_OT.lt. cbn [String_as_OT.compare].
  unfold Ascii_as_OT.compare.
  change (N_as_OT.compare (N_of_ascii a) (N_of_ascii b))
    with (N.compare (N_of_ascii a) (N_of_ascii b)).
  destruct (N.compare_spec (N_of_ascii a) (N_of_ascii b)) as [E|L|G].
  - assert (a = b) as ->
      by (rewrite <- (ascii_N_embedding a), <- (ascii_N_embedding b);
          now rewrite E).
    split; [intros H; right; now split|].
    intros [H|[_ H]]; [exfalso; lia|exact H].
  - split; [intros _; now left|reflexivity].
  - split; [discriminate|].
    intros [H|[-> _]]; exfalso; lia.
Qed.

Lemma key_lt_empty s b t : key_lt "" (String b t) /\ ~ key_lt s "".
Proof using Type.
  split; [reflexivity|]. unfold key_lt, String_as_OT.lt.
  destruct s; discriminate.
Qed.

Lemma key_lt_irrefl a : ~ key_lt a a.
Proof. apply (StrictOrder_Irreflexive (R := String_as_OT.lt)). Qed.

Lemma key_lt_trans a b c : key_lt a b -> key_lt b c -> key_lt a c.
Proof. apply (StrictOrder_Transitive (R := String_as_OT.lt)). Qed.

Lemma insert_entry_perm e o : Permutation (insert_entry e o) (e :: o).
Proof.
induction o as [|e' r IH]; simpl; [reflexivity|].
destruct (key_leb (fst e) (fst e')); [reflexivity|].
rewrite IH. apply perm_swap.
Qed.

Lemma sortObjKeys_perm o : Permutation (sortObjKeys o) o.
Proof.
induction o as [|e r IH]; simpl; [constructor|].
rewrite insert_entry_perm. now constructor.
Qed.

Lemma keys_perm (a b : Obj) : Permutation a b -> Permutation (keys a) (keys b).
Proof. apply Permutation_map. Qed.

Lemma insert_entry_sorted e s :
StronglySorted key_lt (keys s) -> ~ In (fst e) (keys s) ->
StronglySorted key_lt (keys (insert_entry e s)).
Proof.
induction s as [|e' r IH]; simpl; intros Hs Hn.
- repeat constructor.
- inversion Hs as [|? ? Hr Hall]; subst.
  destruct (key_leb (fst e) (fst e')) eqn:E; simpl.
  + apply key_leb_true in E. destruct E as [E|E]; [exfalso; apply Hn; left; congruence|].
    constructor; [assumption|]. constructor; [assumption|].
    eapply Forall_impl; [|exact Hall]. intros x Hx. eapply key_lt_trans; eauto.
  + apply key_leb_false in E. constructor.
    * apply IH; tauto.
    * apply Forall_forall. intros x Hx.
      apply (Permutation_in _ (keys_perm _ _ (insert_entry_perm e r))) in Hx.
      simpl in Hx. destruct Hx as [<-|Hx]; [assumption|].
      rewrite Forall_forall in Hall. auto.
Qed.

Lemma sortObjKeys_sorted o :
NoDup (keys o) -> StronglySorted key_lt (keys (sortObjKeys o)).
Proof.
induction o as [|e r IH]; simpl; intros Hnd.
- constructor.
- inversion Hnd; subst. apply insert_entry_sorted; [auto|].
  intros Hin. apply (Permutation_in _ (keys_perm _ _ (sortObjKeys_perm r))) in Hin.
  contradiction.
Qed.

Lemma sorted_keys_unique (a b : Obj) :
StronglySorted key_lt (keys a) -> StronglySorted key_lt (keys b) ->
Permutation a b -> a = b.
Proof.
revert b. induction a as [|x a IH]; intros b Ha Hb Hp.
- apply Permutation_nil in Hp. now subst.
- destruct b as [|y b]; [apply Permutation_sym, Permutation_nil in Hp; discriminate|].
  simpl in Ha, Hb.
  inversion Ha as [|? ? Ha' Fa]; inversion Hb as [|? ? Hb' Fb]; subst.
  assert (x = y) as ->.
  { assert (Hx : In x (y :: b)) by (eapply Permutation_in; [exact Hp|now left]).
    assert (Hy : In y (x :: a))
      by (eapply Permutation_in; [apply Permutation_sym; exact Hp|now left]).
    destruct Hx as [Hx|Hx]; [congruence|].
    destruct Hy as [Hy|Hy]; [congruence|].
    exfalso. rewrite Forall_forall in Fa, Fb.
    apply (key_lt_irrefl (fst x)).
    eapply key_lt_trans.
    - apply Fa. apply in_map. exact Hy.
    - apply Fb. apply in_map. exact Hx. }
  f_equal. apply IH; auto. eapply Permutation_cons_inv; eauto.
Qed.

Lemma sorted_keys_NoDup (l : list string) : StronglySorted key_lt l -> NoDup l.
Proof.
induction 1 as [|x l Hs IH Hall]; constructor; auto.
intro Hin. rewrite Forall_forall in Hall. apply (key_lt_irrefl x). auto.
Qed.

Lemma assoc_insert_entry k e o :
assoc k (insert_entry e o) = if fst e =? k then Some (snd e) else assoc k o.
Proof.
induction o as [|[k' v'] r IH]; simpl.
- destruct e; reflexivity.
- destruct (key_leb (fst e) k') eqn:E; simpl.
  + destruct e; reflexivity.
  + rewrite IH. apply key_leb_false in E.
    destruct (String.eqb_spec (fst e) k); [|reflexivity].
    destruct (String.eqb_spec k' k); [|reflexivity].
    exfalso. apply (key_lt_irrefl k). congruence.
Qed.

Lemma assoc_sortObjKeys k o : assoc k (sortObjKeys o) = assoc k o.
Proof.
induction o as [|[k' v'] r IH]; simpl; [reflexivity|].
rewrite assoc_insert_entry, IH. reflexivity.
Qed.

Lemma assoc_In (o : Obj) k v :
  NoDup (keys o) -> (In (k, v) o <-> assoc k o = Some v).
Proof using Type.
  induction o as [|[k' v'] r IH]; simpl; intros Hnd.
  - split; [intros []|discriminate].
  - inversion Hnd as [|? ? Hni Hr]; subst.
    destruct (String.eqb_spec k' k) as [->|Hne].
    + split.
      * intros [H|H]; [now injection H as ->|].
        exfalso. apply Hni. apply (in_map fst r (k, v) H).
      * intros H. left. now injection H as ->.
    + rewrite <- (IH Hr). split.
      * intros [H|H]; [|exact H]. injection H as H1 H2. contradiction.
      * intros H. now right.
Qed.

Lemma sortObjKeys_ext (a b : Obj) :
  NoDup (keys a) -> NoDup (keys b) ->
  (forall k, assoc k a = assoc k b) -> sortObjKeys a = sortObjKeys b.
Proof.
  intros Ha Hb Hab.
  apply sorted_keys_unique; try now apply sortObjKeys_sorted.
  rewrite !sortObjKeys_perm.
  apply NoDup_Permutation.
  - eapply NoDup_map_inv; exact Ha.
  - eapply NoDup_map_inv; exact Hb.
  - intros [k v]. rewrite (assoc_In a k v Ha), (assoc_In b k v Hb), Hab.
    reflexivity.
Qed.

Lemma assoc_obj_set k k' v (o : Obj) :
  assoc k (obj_set k' v o) = if k' =? k then Some v else assoc k o.
Proof.
  induction o as [|[k1 v1] r IH]; simpl; [reflexivity|].
  destruct (String.eqb_spec k1 k') as [->|Hne]; simpl.
  - now destruct (k' =? k).
  - rewrite IH. destruct (String.eqb_spec k1 k) as [->|]; [|reflexivity].
    destruct (String.eqb_spec k' k); [congruence|reflexivity].
Qed.

Lemma keys_obj_set_In x k v (o : Obj) :
  In x (keys (obj_set k v o)) -> x = k \/ In x (keys o).
Proof.
  induction o as [|[k1 v1] r IH]; simpl.
  - intros [H|[]]; auto.
  - destruct (String.eqb_spec k1 k) as [->|Hne]; simpl.
    + intros [H|H]; auto.
    + intros [H|H]; auto. destruct (IH H); auto.
Qed.

Lemma NoDup_keys_obj_set k v (o : Obj) :
  NoDup (keys o) -> NoDup (keys (obj_set k v o)).
Proof.
  induction o as [|[k1 v1] r IH]; simpl; intros Hnd.
  - repeat constructor. intros [].
  - inversion Hnd as [|? ? Hni Hr]; subst.
    destruct (String.eqb_spec k1 k) as [->|Hne]; simpl.
    + now constructor.
    + constructor; [|auto]. intros Hin.
      destruct (keys_obj_set_In _ _ _ _ Hin); congruence.
Qed.

Lemma NoDup_keys_filter (p : string * string -> bool) (o : Obj) :
  NoDup (keys o) -> NoDup (keys (filter p o)).
Proof.
  induction o as [|e r IH]; simpl; intros Hnd; [constructor|].
  inversion Hnd as [|? ? Hni Hr]; subst.
  destruct (p e); simpl; [|auto].
  constructor; [|auto]. intros Hin. apply Hni.
  unfold keys in *. rewrite in_map_iff in *.
  destruct Hin as [y [Hy Hin]]. exists y. split; [assumption|].
  now apply filter_In in Hin.
Qed.

Lemma assoc_filter (p : string -> bool) k (o : Obj) :
  assoc k (filter (fun kv => p (fst kv)) o) =
  if p k then assoc k o else None.
Proof.
  induction o as [|[k1 v1] r IH]; simpl.
  - now destruct (p k).
  - destruct (p k1) eqn:E1; simpl.
    + rewrite IH. destruct (String.eqb_spec k1 k) as [->|]; [|reflexivity].
      now rewrite E1.
    + rewrite IH. destruct (String.eqb_spec k1 k) as [->|]; [|reflexivity].
      now rewrite E1.
Qed.

Lemma assoc_mergedParams this urlParams timestamp nonce k :
  assoc k (mergedParams this urlParams timestamp nonce) =
  if "app_id" =? k then Some (clientId this)
  else if "timestamp" =? k then Some timestamp
  else if "nonce" =? k then Some nonce
  else if "signature_method" =? k then Some "RS256"
  else assoc k urlParams.
Proof. unfold mergedParams. now rewrite !assoc_obj_set. Qed.

Lemma NoDup_keys_mergedParams this urlParams timestamp nonce :
  NoDup (keys urlParams) ->
  NoDup (keys (mergedParams this urlParams timestamp nonce)).
Proof. intros H. unfold mergedParams. now repeat apply NoDup_keys_obj_set. Qed.

Lemma authParams_own_params this urlParams timestamp nonce :
  NoDup (keys urlParams) ->
  authParams this urlParams timestamp nonce =
  authParams this (own_params urlParams) timestamp nonce.
Proof.
  intros Hnd. unfold authParams. apply sortObjKeys_ext.
  - now apply NoDup_keys_mergedParams.
  - apply NoDup_keys_mergedParams. now apply NoDup_keys_filter.
  - intros k. rewrite !assoc_mergedParams. unfold own_params.
    rewrite (assoc_filter (fun k => negb (protocol_key k))).
    unfold protocol_key.
    rewrite (String.eqb_sym k "signature_method"), (String.eqb_sym k "nonce"),
      (String.eqb_sym k "timestamp"), (String.eqb_sym k "app_id").
    destruct ("app_id" =? k); [reflexivity|].
    destruct ("timestamp" =? k); [reflexivity|].
    destruct ("nonce" =? k); [reflexivity|].
    destruct ("signature_method" =? k); reflexivity.
Qed.


Lemma generateAuthHeader_run this method url urlParams w :
  _generateAuthHeader this method url urlParams w =
  (match RSA_SHA256_sign (clientPrivateKey this)
           (baseString this method url urlParams
              (timestamp_at w) (nonce_at w)) with
   | Ok signature =>
       Ok (PKI_SIGN (timestamp_at w) (nonce_at w) (clientId this) signature)
   | Throw e => Throw e
   end, after_signing w).
Proof.
  unfold _generateAuthHeader, bind, now, randomBytes, lift, ret,
    timestamp_at, nonce_at, after_signing. simpl.
  now destruct (RSA_SHA256_sign _ _).
Qed.

Lemma axios_run r w : axios r w = (settle w r, after_request w r).
Proof.
  unfold axios, settle, after_request.
  destruct (network _ _) as [e|status data]; [reflexivity|].
  now destruct (validateStatus status).
Qed.

Lemma sendPersonRequest_run this accessToken requestedAttributes uinFin w :
  _sendPersonRequest this accessToken requestedAttributes (Some uinFin) w =
  match RSA_SHA256_sign (clientPrivateKey this)
          (baseString this GET (personUrl this uinFin)
             (personParams this requestedAttributes)
             (timestamp_at w) (nonce_at w)) with
  | Throw e => (Throw e, after_signing w)
  | Ok signature =>
      let r :=
        person_request this accessToken requestedAttributes uinFin
          (PKI_SIGN (timestamp_at w) (nonce_at w) (clientId this)
             signature) in
      (settle (after_signing w) r, after_request (after_signing w) r)
  end.
Proof.
  unfold _sendPersonRequest, bind at 1 2. unfold ret at 1.
  rewrite generateAuthHeader_run.
  destruct (RSA_SHA256_sign _ _) as [signature|e]; [|reflexivity].
  now rewrite axios_run.
Qed.


Lemma getAccessToken_run this authCode w :
  _getAccessToken this authCode w =
  match RSA_SHA256_sign (clientPrivateKey this)
          (baseString this POST (postUrl this) (postParams this authCode)
             (timestamp_at w) (nonce_at w)) with
  | Throw e => (Throw e, after_signing w)
  | Ok signature =>
      let r :=
        token_request this authCode
          (PKI_SIGN (timestamp_at w) (nonce_at w) (clientId this)
             signature) in
      (match settle (after_signing w) r with
       | Ok data => js_prop data "access_token"
       | Throw e => Throw e
       end, after_request (after_signing w) r)
  end.
Proof.
  unfold _getAccessToken, bind at 1 2.
  rewrite generateAuthHeader_run.
  destruct (RSA_SHA256_sign _ _) as [signature|e]; [|reflexivity].
  rewrite axios_run. cbv zeta.
  fold (token_request this authCode
          (PKI_SIGN (timestamp_at w) (nonce_at w) (clientId this) signature)).
  now destruct (settle _ _).
Qed.

(* =============================================================== *)
(** ** Overriding of the protocol parameters *)


(* =============================================================== *)
(** ** The authorization header *)


(* =============================================================== *)
(** ** Identity extraction *)

(** C4. A token whose header names an algorithm other than RS256 is
    rejected with the error of the verification, whatever its payload.
    When the verification succeeds the subject is returned exactly when the
    claims are an object whose [sub] is a string; object claims without a
    string [sub] fail with the did-not-contain message, claims that are not
    an object fail with the unexpected-shape message, and the two differ. *)
Theorem extractUinFin_outcomes this jwt :
  (forall token alg,
      jwt = VStr token -> jws_alg token = Some alg -> alg <> "RS256" ->
      exists e,
        verifyJwt jwt (myInfoPublicKey this) ["RS256"] = Throw e
        /\ _extractUinFin this jwt = Throw e)
  /\ (forall decoded,
        verifyJwt jwt (myInfoPublicKey this) ["RS256"] = Ok decoded ->
        (forall sub,
            _extractUinFin this jwt = Ok sub <->
            exists props,
              decoded = PayloadObject props
              /\ assoc "sub" props = Some (VStr sub))
        /\ (forall props,
              decoded = PayloadObject props ->
              (forall sub, assoc "sub" props <> Some (VStr sub)) ->
              _extractUinFin this jwt =
              Throw (Error "JWT returned from MyInfo did not contain UIN/FIN"))
        /\ (forall s,
              decoded = PayloadString s ->
              _extractUinFin this jwt =
              Throw (Error "JWT returned from MyInfo had unexpected shape")))
  /\ Error "JWT returned from MyInfo did not contain UIN/FIN"
     <> Error "JWT returned from MyInfo had unexpected shape".
Proof.
  split; [|split].
  - intros token alg -> Halg Hne. unfold _extractUinFin.
    destruct (verifyJwt (VStr token) (myInfoPublicKey this) ["RS256"])
      as [decoded|e] eqn:Hv.
    + apply verifyJwt_algorithms in Hv. destruct Hv as [alg' [Ha Hin]].
      simpl in Hin. destruct Hin as [<-|[]]. congruence.
    + exists e. split; reflexivity.
  - intros decoded Hv. unfold _extractUinFin. rewrite Hv.
    destruct decoded as [s|props]; simpl.
    + split; [|split].
      * intros sub. split; [discriminate|]. intros [props [H _]]. discriminate.
      * intros props H. discriminate.
      * reflexivity.
    + unfold hasProp, obj_lookup.
      destruct (assoc "sub" props) as [v|] eqn:Hsub.
      * split; [|split].
        -- intros sub. split.
           ++ intros H. exists props. split; [reflexivity|].
              destruct v; try discriminate. congruence.
           ++ intros [props' [Hp Hs]]. injection Hp as <-.
              rewrite Hsub in Hs. injection Hs as ->. reflexivity.
        -- intros props' Hp Hno. injection Hp as <-.
           destruct v; try reflexivity. exfalso. now apply (Hno s).
        -- intros s H. discriminate.
      * split; [|split].
        -- intros sub. split; [discriminate|].
           intros [props' [Hp Hs]]. injection Hp as <-. congruence.
        -- reflexivity.
        -- intros s H. discriminate.
  - discriminate.
Qed.

(* =============================================================== *)
(** ** Token exchange *)

(** C5, as the code has it. Once the header is signed, exactly one request
    is sent: a POST to the token URL whose form body is [grant_type],
    [code], [redirect_uri], [client_id], [client_secret] and whose
    Authorization header is signed over that URL and the same set, the
    secret included. A transport error or a status outside 2xx makes the
    exchange fail with that error; a 2xx answer makes it resolve with the
    [access_token] of the body: the token string when the body has one,
    [undefined] (no failure) when the body is an object without it. A
    failed signature fails the exchange before anything is sent. *)
Theorem getAccessToken_outcomes this authCode w :
  let signedOver :=
    baseString this POST (postUrl this) (postParams this authCode)
      (timestamp_at w) (nonce_at w) in
  let run := _getAccessToken this authCode w in
  (forall e,
      RSA_SHA256_sign (clientPrivateKey this) signedOver = Throw e ->
      fst run = Throw e /\ sent (snd run) = sent w)
  /\ (forall signature,
        RSA_SHA256_sign (clientPrivateKey this) signedOver = Ok signature ->
        let r :=
          token_request this authCode
            (PKI_SIGN (timestamp_at w) (nonce_at w) (clientId this)
               signature) in
        let answer := network (length (sent w)) r in
        sent (snd run) = (sent w ++ [r])%list
        /\ req_body r =
           Some [ ("grant_type", "authorization_code");
                  ("code", authCode);
                  ("redirect_uri", redirectEndpoint this);
                  ("client_id", clientId this);
                  ("client_secret", clientSecret this) ]
        /\ assoc "client_secret"
             (authParams this (postParams this authCode)
                (timestamp_at w) (nonce_at w))
           = Some (clientSecret this)
        /\ (forall e, answer = NetworkError e -> fst run = Throw e)
        /\ (forall status data,
              answer = Response status data ->
              validateStatus status = false ->
              fst run = Throw (axios_status_error status))
        /\ (forall status props,
              answer = Response status (VObj props) ->
              validateStatus status = true ->
              (forall token,
                  assoc "access_token" props = Some (VStr token) ->
                  fst run = Ok (VStr token))
              /\ (assoc "access_token" props = None ->
                  fst run = Ok VUndefined))).
Proof.
  intros signedOver run. subst signedOver run.
  rewrite getAccessToken_run. split.
  - intros e He. rewrite He. split; reflexivity.
  - intros signature Hs. rewrite Hs. cbv zeta. simpl fst. simpl snd.
    unfold settle. simpl (length (sent (after_signing w))).
    split; [reflexivity|]. split; [reflexivity|]. split.
    { unfold authParams.
      now rewrite assoc_sortObjKeys, assoc_mergedParams. }
    split; [|split].
    + intros e He. now rewrite He.
    + intros status data Ha Hv. now rewrite Ha, Hv.
    + intros status props Ha Hv. rewrite Ha, Hv. simpl. unfold obj_lookup.
      split.
      * intros token Ht. now rewrite Ht.
      * intros Hn. now rewrite Hn.
Qed.

(* =============================================================== *)
(** ** Orchestration *)

(** C7. [getPerson] runs the token exchange, then the identity
    extraction, then the person request. A failure of a stage ends the run
    there, in the world that stage left, with an [Error] whose message is
    the stage's own prefix followed by the failure; messages of different
    stages are never equal. When all three succeed the result is the pair
    of the exchanged token and the fetched record. *)
Theorem getPerson_stages this authCode requestedAttributes w :
  match _getAccessToken this authCode w with
  | (Throw err, w1) =>
      getPerson this authCode requestedAttributes w =
      (Throw (Error ("The following error occurred while retrieving the access token: "
                       ++ err_toString err)), w1)
  | (Ok accessToken, w1) =>
      match _extractUinFin this accessToken with
      | Throw err =>
          getPerson this authCode requestedAttributes w =
          (Throw (Error ("The following error occurred while decoding the token from MyInfo: "
                           ++ err_toString err)), w1)
      | Ok uinFin =>
          match _sendPersonRequest this accessToken requestedAttributes
                  (Some uinFin) w1 with
          | (Throw err, w2) =>
              getPerson this authCode requestedAttributes w =
              (Throw (Error ("The following error occurred while calling the Person API: "
                               ++ err_toString err)), w2)
          | (Ok data, w2) =>
              getPerson this authCode requestedAttributes w =
              (Ok (accessToken, data), w2)
          end
      end
  end
  /\ (forall e1 e2,
        token_stage_message e1 <> decode_stage_message e2
        /\ token_stage_message e1 <> person_stage_message e2
        /\ decode_stage_message e1 <> person_stage_message e2).
Proof.
  split.
  - unfold getPerson, bind, try_catch, lift, throw, ret.
    destruct (_getAccessToken this authCode w) as [[accessToken|err] w1];
      [|reflexivity].
    destruct (_extractUinFin this accessToken) as [uinFin|err];
      [|reflexivity].
    destruct (_sendPersonRequest this accessToken requestedAttributes
                (Some uinFin) w1) as [[data|err] w2]; reflexivity.
  - intros e1 e2.
    unfold token_stage_message, decode_stage_message, person_stage_message.
    repeat split; simpl; discriminate.
Qed.

(* =============================================================== *)
(** ** Further properties: signing *)

Lemma assoc_Permutation (a b : Obj) k :
  NoDup (keys a) -> Permutation a b -> assoc k a = assoc k b.
Proof using Type.
  intros Ha Hp.
  assert (Hb : NoDup (keys b))
    by (eapply Permutation_NoDup; [apply keys_perm; exact Hp|exact Ha]).
  destruct (assoc k a) as [v|] eqn:Ea.
  - apply (assoc_In a k v Ha) in Ea. symmetry. apply (assoc_In b k v Hb).
    eapply Permutation_in; eauto.
  - destruct (assoc k b) as [v|] eqn:Eb; [|reflexivity].
    apply (assoc_In b k v Hb) in Eb.
    apply (Permutation_in _ (Permutation_sym Hp)) in Eb.
    apply (assoc_In a k v Ha) in Eb. rewrite Eb in Ea. discriminate.
Qed.

Lemma authParams_Permutation this (urlParams urlParams' : Obj) timestamp
    nonce :
  NoDup (keys urlParams) -> Permutation urlParams urlParams' ->
  authParams this urlParams timestamp nonce =
  authParams this urlParams' timestamp nonce.
Proof using Type.
  intros Hnd Hp. unfold authParams. apply sortObjKeys_ext.
  - now apply NoDup_keys_mergedParams.
  - apply NoDup_keys_mergedParams.
    eapply Permutation_NoDup; [apply keys_perm; exact Hp|exact Hnd].
  - intros k. rewrite !assoc_mergedParams.
    now rewrite (assoc_Permutation _ _ k Hnd Hp).
Qed.

(** X10. Signing does not depend on the order in which the caller lists the
    parameters: two well-formed mappings with the same entries give the same
    signed set, the same base string and the same run of
    [_generateAuthHeader]. *)
Theorem signing_ignores_parameter_order this method url
    (urlParams urlParams' : Obj) w :
  NoDup (keys urlParams) -> Permutation urlParams urlParams' ->
  authParams this urlParams (timestamp_at w) (nonce_at w)
  = authParams this urlParams' (timestamp_at w) (nonce_at w)
  /\ baseString this method url urlParams (timestamp_at w) (nonce_at w)
     = baseString this method url urlParams' (timestamp_at w) (nonce_at w)
  /\ _generateAuthHeader this method url urlParams w
     = _generateAuthHeader this method url urlParams' w.
Proof.
  intros Hnd Hp.
  assert (H := authParams_Permutation this urlParams urlParams'
                 (timestamp_at w) (nonce_at w) Hnd Hp).
  split; [exact H|].
  assert (Hb : baseString this method url urlParams
                 (timestamp_at w) (nonce_at w)
               = baseString this method url urlParams'
                   (timestamp_at w) (nonce_at w))
    by (unfold baseString; now rewrite H).
  split; [exact Hb|].
  now rewrite !generateAuthHeader_run, Hb.
Qed.

Lemma obj_set_absent k v (o : Obj) :
  assoc k o = None -> obj_set k v o = (o ++ [(k, v)])%list.
Proof using Type.
  induction o as [|[k1 v1] r IH]; simpl; [reflexivity|].
  destruct (String.eqb k1 k); [discriminate|].
  intros H. now rewrite (IH H).
Qed.

Lemma assoc_app_absent k (a b : Obj) :
  assoc k a = None -> assoc k (a ++ b)%list = assoc k b.
Proof using Type.
  induction a as [|[k1 v1] r IH]; simpl; [reflexivity|].
  destruct (String.eqb k1 k); [discriminate|]. exact IH.
Qed.

Lemma assoc_own_params_protocol k urlParams :
  protocol_key k = true -> assoc k (own_params urlParams) = None.
Proof using Type.
  intros H. unfold own_params.
  rewrite (assoc_filter (fun k => negb (protocol_key k))). now rewrite H.
Qed.

Lemma mergedParams_own_params this urlParams timestamp nonce :
  mergedParams this (own_params urlParams) timestamp nonce =
  (own_params urlParams
     ++ [ ("signature_method", "RS256"); ("nonce", nonce);
          ("timestamp", timestamp); ("app_id", clientId this) ])%list.
Proof using Type.
  unfold mergedParams.
  rewrite (obj_set_absent "signature_method"), (obj_set_absent "nonce"),
    (obj_set_absent "timestamp"), (obj_set_absent "app_id").
  - now rewrite <- !app_assoc.
  - rewrite <- !app_assoc.
    rewrite assoc_app_absent by now apply assoc_own_params_protocol.
    reflexivity.
  - rewrite <- !app_assoc.
    rewrite assoc_app_absent by now apply assoc_own_params_protocol.
    reflexivity.
  - rewrite assoc_app_absent by now apply assoc_own_params_protocol.
    reflexivity.
  - now apply assoc_own_params_protocol.
Qed.

(** X11. The signed set of a well-formed mapping is the canonical order of
    the caller's own entries followed by the four protocol entries; it has
    exactly four entries more than the caller's own, so it is never
    empty. *)
Theorem signed_set_size this urlParams timestamp nonce :
  NoDup (keys urlParams) ->
  authParams this urlParams timestamp nonce
  = sortObjKeys
      (own_params urlParams
         ++ [ ("signature_method", "RS256"); ("nonce", nonce);
              ("timestamp", timestamp); ("app_id", clientId this) ])%list
  /\ length (authParams this urlParams timestamp nonce)
     = 4 + length (own_params urlParams)
  /\ length (own_params urlParams) <= length urlParams.
Proof using Type.
  intros Hnd.
  assert (H : authParams this urlParams timestamp nonce
              = sortObjKeys
                  (own_params urlParams
                     ++ [ ("signature_method", "RS256"); ("nonce", nonce);
                          ("timestamp", timestamp);
                          ("app_id", clientId this) ])%list).
  { rewrite (authParams_own_params _ _ _ _ Hnd). unfold authParams.
    now rewrite mergedParams_own_params. }
  split; [exact H|]. split.
  - rewrite H, (Permutation_length (sortObjKeys_perm _)), length_app.
    simpl. lia.
  - unfold own_params. apply filter_length_le.
Qed.

Lemma b64_in_alphabet n : (n < 64)%N -> base64_char (b64 n) = true.
Proof using Type.
  intros H. unfold base64_char. apply orb_true_iff. left.
  apply existsb_exists. exists (b64 n). split; [|apply Ascii.eqb_refl].
  unfold b64. apply nth_In.
  change (length base64_alphabet) with 64%nat. lia.
Qed.

Lemma base64_chars_bounded n :
  forall bs, (length bs <= n)%nat -> Forall (fun b => b < 256)%N bs ->
  string_forall base64_char (base64 bs) = true
  /\ String.length (base64 bs) = (4 * ((length bs + 2) / 3))%nat.
Proof using Type.
  induction n as [n IH] using lt_wf_ind. intros bs Hlen Hb.
  destruct bs as [|a [|b [|c r]]].
  - split; reflexivity.
  - inversion Hb as [|? ? Ha _]; subst.
    cbn [base64 string_forall String.length length].
    rewrite !b64_in_alphabet.
    + split; reflexivity.
    + assert (a mod 4 < 4)%N by (apply N.mod_lt; lia). lia.
    + apply N.Div0.div_lt_upper_bound. lia.
  - inversion Hb as [|? ? Ha Hb']; subst.
    inversion Hb' as [|? ? Hb1 _]; subst.
    cbn [base64 string_forall String.length length].
    rewrite !b64_in_alphabet.
    + split; reflexivity.
    + assert (b mod 16 < 16)%N by (apply N.mod_lt; lia). lia.
    + assert (a mod 4 < 4)%N by (apply N.mod_lt; lia).
      assert (b / 16 < 16)%N by (apply N.Div0.div_lt_upper_bound; lia). lia.
    + apply N.Div0.div_lt_upper_bound. lia.
  - inversion Hb as [|? ? Ha Hb']; subst.
    inversion Hb' as [|? ? Hb1 Hb'']; subst.
    inversion Hb'' as [|? ? Hc Hr]; subst.
    cbn [length] in Hlen.
    destruct (IH (length r)) with (bs := r) as [IH1 IH2]; [lia|lia|exact Hr|].
    cbn [base64 string_forall String.length].
    rewrite !b64_in_alphabet, IH1, IH2.
    + split; [reflexivity|]. cbn [length].
      replace (S (S (S (length r))) + 2)%nat with (length r + 2 + 1 * 3)%nat
        by lia.
      rewrite Nat.div_add by lia. lia.
    + apply N.mod_lt. lia.
    + assert (b mod 16 < 16)%N by (apply N.mod_lt; lia).
      assert (c / 64 < 4)%N by (apply N.Div0.div_lt_upper_bound; lia). lia.
    + assert (a mod 4 < 4)%N by (apply N.mod_lt; lia).
      assert (b / 16 < 16)%N by (apply N.Div0.div_lt_upper_bound; lia). lia.
    + apply N.Div0.div_lt_upper_bound. lia.
Qed.

Lemma string_forall_count p c s :
  string_forall p s = true -> p c = false -> count_char c s = 0%nat.
Proof using Type.
  intros Hs Hc. induction s as [|x r IH]; [reflexivity|].
  cbn [string_forall] in Hs. apply andb_true_iff in Hs. destruct Hs as [Hx Hr].
  cbn [count_char]. rewrite (IH Hr).
  destruct (Ascii.eqb_spec x c) as [->|]; [congruence|reflexivity].
Qed.

(** X13. The nonce of every header is base64 text: each of its characters
    is a letter, a digit, [+], [/] or [=]. It therefore holds no double
    quote, comma or ampersand, the characters that delimit the fields of the
    header and the parameters of the base string. *)
Theorem nonce_is_base64_text w :
  string_forall base64_char (nonce_at w) = true
  /\ count_char (ascii_of_nat 34) (nonce_at w) = 0%nat
  /\ count_char ","%char (nonce_at w) = 0%nat
  /\ count_char "&"%char (nonce_at w) = 0%nat.
Proof using Type.
  assert (H : string_forall base64_char (nonce_at w) = true).
  { unfold nonce_at.
    apply (base64_chars_bounded 32); [now rewrite length_map, length_seq|].
    apply Forall_forall. intros b Hb. apply in_map_iff in Hb.
    destruct Hb as [j [<- _]]. apply N_ascii_bounded. }
  split; [exact H|].
  repeat split; apply (string_forall_count _ _ _ H); reflexivity.
Qed.

(* =============================================================== *)
(** ** Further properties: the person request *)


(** X5. Given the identifier, a failed signature ends the person request
    before anything is sent. Otherwise exactly one request is sent: a GET to
    the base URL followed by [/person/], the identifier as it is and a
    slash, with the query [client_id=..&attributes=..] (values
    query-encoded, attributes comma-joined) and a no-cache header. A
    transport error or a status outside 2xx is thrown; a 2xx body is
    returned as received, whatever its shape. *)
Theorem sendPersonRequest_outcomes this accessToken requestedAttributes
    uinFin w :
  let signedOver :=
    baseString this GET (personUrl this uinFin)
      (personParams this requestedAttributes)
      (timestamp_at w) (nonce_at w) in
  let run :=
    _sendPersonRequest this accessToken requestedAttributes (Some uinFin) w in
  (forall e,
      RSA_SHA256_sign (clientPrivateKey this) signedOver = Throw e ->
      fst run = Throw e /\ sent (snd run) = sent w)
  /\ (forall signature,
        RSA_SHA256_sign (clientPrivateKey this) signedOver = Ok signature ->
        exists r,
          sent (snd run) = (sent w ++ [r])%list
          /\ req_method r = GET
          /\ req_url r =
             js_toString (baseAPIUrl this) ++ "/person/" ++ uinFin ++ "/"
          /\ req_query r =
             Some ("client_id=" ++ qs_encode (clientId this)
                     ++ "&attributes="
                     ++ qs_encode (String.concat "," requestedAttributes))
          /\ req_body r = None
          /\ assoc "Cache-Control" (req_headers r) = Some "no-cache"
          /\ (forall e,
                network (length (sent w)) r = NetworkError e ->
                fst run = Throw e)
          /\ (forall status data,
                network (length (sent w)) r = Response status data ->
                fst run =
                if validateStatus status then Ok data
                else Throw (axios_status_error status))).
Proof.
  intros signedOver run. subst signedOver run.
  rewrite sendPersonRequest_run. split.
  - intros e He. rewrite He. split; reflexivity.
  - intros signature Hs. rewrite Hs. cbv zeta.
    eexists. cbn [fst snd]. unfold after_request at 1. cbn [sent after_signing].
    split; [reflexivity|]. unfold settle. cbn [sent after_signing].
    repeat split.
    + intros e He. now rewrite He.
    + intros status data Ha. now rewrite Ha.
Qed.

(* =============================================================== *)
(** ** Further properties: the token exchange *)

(** X9. After a signed token request that is answered with a 2xx status,
    the exchange fails exactly when the body is [null] or [undefined] (a
    TypeError from reading [access_token]); on every other body it
    resolves, with [undefined] when the body is not an object. *)
Theorem getAccessToken_body_outcomes this authCode w signature status data :
  RSA_SHA256_sign (clientPrivateKey this)
    (baseString this POST (postUrl this) (postParams this authCode)
       (timestamp_at w) (nonce_at w)) = Ok signature ->
  network (length (sent w))
    (token_request this authCode
       (PKI_SIGN (timestamp_at w) (nonce_at w) (clientId this) signature))
  = Response status data ->
  validateStatus status = true ->
  let result := fst (_getAccessToken this authCode w) in
  ((exists e, result = Throw e) <-> data = VUndefined \/ data = VNull)
  /\ (forall e, result = Throw e -> err_name e = "TypeError")
  /\ ((forall props, data <> VObj props) ->
      data <> VUndefined -> data <> VNull -> result = Ok VUndefined).
Proof.
  intros Hs Ha Hv result. subst result.
  rewrite getAccessToken_run, Hs. cbv zeta. cbn [fst].
  unfold settle. cbn [sent after_signing]. rewrite Ha, Hv.
  destruct data as [| |b|z|s|items|props|name]; cbn [js_prop].
  1,2: split; [split; [intros _; auto|intros _; eexists; reflexivity]|];
       split; [intros e He; now injection He as <-|];
       intros _ H1 H2; congruence.
  all: split; [split; [intros [e He]; discriminate
                      |intros [H|H]; discriminate]|];
       split; [intros e He; discriminate|].
  1-4,6: reflexivity.
  intros H. exfalso. now apply (H props).
Qed.

(* =============================================================== *)
(** ** Further properties: orchestration *)

Lemma getPerson_unfold this authCode requestedAttributes w :
  getPerson this authCode requestedAttributes w =
  match _getAccessToken this authCode w with
  | (Throw err, w1) => (Throw (Error (token_stage_message err)), w1)
  | (Ok accessToken, w1) =>
      match _extractUinFin this accessToken with
      | Throw err => (Throw (Error (decode_stage_message err)), w1)
      | Ok uinFin =>
          match _sendPersonRequest this accessToken requestedAttributes
                  (Some uinFin) w1 with
          | (Throw err, w2) => (Throw (Error (person_stage_message err)), w2)
          | (Ok data, w2) => (Ok (accessToken, data), w2)
          end
      end
  end.
Proof.
  unfold getPerson, bind, try_catch, lift, throw, ret.
  destruct (_getAccessToken this authCode w) as [[accessToken|err] w1];
    [|reflexivity].
  destruct (_extractUinFin this accessToken) as [uinFin|err]; [|reflexivity].
  destruct (_sendPersonRequest this accessToken requestedAttributes
              (Some uinFin) w1) as [[data|err] w2]; reflexivity.
Qed.

(** X7. Whatever fails inside [getPerson], the caller receives a plain
    [Error]: its name is Error, never that of the failure underneath, and
    its message is one of the three stage prefixes followed by the text of
    that failure; every such message starts with the same words. *)
Theorem getPerson_error_shape this authCode requestedAttributes w e :
  fst (getPerson this authCode requestedAttributes w) = Throw e ->
  err_name e = "Error"
  /\ (exists cause,
        err_message e = token_stage_message cause
        \/ err_message e = decode_stage_message cause
        \/ err_message e = person_stage_message cause)
  /\ prefix "The following error occurred while " (err_message e) = true.
Proof.
  rewrite getPerson_unfold.
  destruct (_getAccessToken this authCode w) as [[accessToken|err] w1].
  - destruct (_extractUinFin this accessToken) as [uinFin|err].
    + destruct (_sendPersonRequest this accessToken requestedAttributes
                  (Some uinFin) w1) as [[data|err] w2]; [discriminate|].
      intros H. injection H as <-. split; [reflexivity|]. split.
      * exists err. right. right. reflexivity.
      * reflexivity.
    + intros H. injection H as <-. split; [reflexivity|]. split.
      * exists err. right. left. reflexivity.
      * reflexivity.
  - intros H. injection H as <-. split; [reflexivity|]. split.
    + exists err. left. reflexivity.
    + reflexivity.
Qed.


(** X8. When the token endpoint answers a signed request with a 2xx status
    and an object without [access_token], and [verify] rejects [undefined],
    [getPerson] fails with the message of the decoding stage, not of the
    token stage, after the one POST and without sending the person
    request. *)
Theorem getPerson_missing_token_stage this authCode requestedAttributes w
    signature status props e :
  RSA_SHA256_sign (clientPrivateKey this)
    (baseString this POST (postUrl this) (postParams this authCode)
       (timestamp_at w) (nonce_at w)) = Ok signature ->
  network (length (sent w))
    (token_request this authCode
       (PKI_SIGN (timestamp_at w) (nonce_at w) (clientId this) signature))
  = Response status (VObj props) ->
  validateStatus status = true ->
  assoc "access_token" props = None ->
  verifyJwt VUndefined (myInfoPublicKey this) ["RS256"] = Throw e ->
  getPerson this authCode requestedAttributes w =
  (Throw (Error ("The following error occurred while decoding the token from MyInfo: "
                   ++ err_toString e)),
   after_request (after_signing w)
     (token_request this authCode
        (PKI_SIGN (timestamp_at w) (nonce_at w) (clientId this) signature))).
Proof.
  intros Hs Ha Hv Hp He.
  rewrite getPerson_unfold, getAccessToken_run, Hs. cbv zeta.
  unfold settle. cbn [sent after_signing]. rewrite Ha, Hv.
  cbn [js_prop]. unfold obj_lookup. rewrite Hp.
  change (assoc "access_token" Object_prototype) with (@None JsVal).
  cbv iota. unfold _extractUinFin. rewrite He. reflexivity.
Qed.

Lemma extractUinFin_Ok_inv this jwt sub :
  _extractUinFin this jwt = Ok sub ->
  exists props,
    verifyJwt jwt (myInfoPublicKey this) ["RS256"] = Ok (PayloadObject props)
    /\ assoc "sub" props = Some (VStr sub).
Proof.
  unfold _extractUinFin.
  destruct (verifyJwt jwt (myInfoPublicKey this) ["RS256"])
    as [[s|props]|e]; cbn [typeof_payload]; try discriminate.
  cbn [String.eqb Ascii.eqb Bool.eqb negb string_prop].
  unfold hasProp, obj_lookup.
  destruct (assoc "sub" props) as [v|] eqn:E; [|discriminate].
  destruct v; try discriminate.
  intros H. injection H as ->. now exists props.
Qed.

(** X14. A successful [getPerson] is never partial: the token it returns is
    the one the exchange resolved with, that token passed the verification
    with object claims whose [sub] is a string, the person request went to
    the URL of exactly that subject, and the record returned is the body of
    that request. Under the contract of the [algorithms] option, a returned
    token that is a string names RS256 in its header. *)
Theorem getPerson_success_verified this authCode requestedAttributes w
    accessToken data :
  fst (getPerson this authCode requestedAttributes w)
  = Ok (accessToken, data) ->
  exists w1 props uinFin,
    _getAccessToken this authCode w = (Ok accessToken, w1)
    /\ verifyJwt accessToken (myInfoPublicKey this) ["RS256"]
       = Ok (PayloadObject props)
    /\ assoc "sub" props = Some (VStr uinFin)
    /\ fst (_sendPersonRequest this accessToken requestedAttributes
              (Some uinFin) w1) = Ok data
    /\ (exists earlier r,
          sent (snd (getPerson this authCode requestedAttributes w))
          = (earlier ++ [r])%list
          /\ req_method r = GET
          /\ req_url r = personUrl this uinFin)
    /\ (forall token,
          accessToken = VStr token -> jws_alg token = Some "RS256").
Proof.
  rewrite getPerson_unfold.
  destruct (_getAccessToken this authCode w) as [[tok|err] w1];
    [|discriminate].
  destruct (_extractUinFin this tok) as [uinFin|err] eqn:Hx; [|discriminate].
  rewrite sendPersonRequest_run.
  destruct (RSA_SHA256_sign (clientPrivateKey this)
              (baseString this GET _ _ _ _)) as [signature|e] eqn:Hs;
    [|discriminate].
  cbv zeta.
  destruct (settle (after_signing w1) _) as [d|err] eqn:Hd; [|discriminate].
  cbn [fst snd]. intros H. injection H as <- <-.
  destruct (extractUinFin_Ok_inv _ _ _ Hx) as [props [Hv Hsub]].
  exists w1, props, uinFin.
  split; [reflexivity|]. split; [exact Hv|]. split; [exact Hsub|].
  split; [now rewrite sendPersonRequest_run, Hs; cbv zeta; rewrite Hd|].
  split.
  - eexists. eexists. unfold after_request. cbn [sent].
    split; [reflexivity|]. split; reflexivity.
  - intros token ->. apply verifyJwt_algorithms in Hv.
    destruct Hv as [alg [Ha [<-|[]]]]. exact Ha.
Qed.

End Runtime.

(* =============================================================== *)
(** ** Canonicalization *)

(** C2. On well-formed mappings (no repeated key) canonicalization returns
    an already key-sorted mapping as it is, is idempotent, gives the same
    output on any two permutations of the same entries, puts the keys in
    ascending order of character codes, and keeps every entry and value. *)
Theorem sortObjKeys_canonical (a b : Obj) :
  NoDup (keys a) -> NoDup (keys b) ->
  (StronglySorted key_lt (keys a) -> sortObjKeys a = a)
  /\ sortObjKeys (sortObjKeys a) = sortObjKeys a
  /\ (Permutation a b -> sortObjKeys a = sortObjKeys b)
  /\ StronglySorted key_lt (keys (sortObjKeys a))
  /\ Permutation (sortObjKeys a) a
  /\ (forall k, assoc k (sortObjKeys a) = assoc k a).
Proof.
  intros Ha Hb.
  assert (Hsa := sortObjKeys_sorted a Ha).
  assert (Hsb := sortObjKeys_sorted b Hb).
  repeat split.
  - intros Hs. apply sorted_keys_unique; auto using sortObjKeys_perm.
  - apply sorted_keys_unique; auto using sortObjKeys_perm.
    apply sortObjKeys_sorted. now apply sorted_keys_NoDup.
  - intros Hp. apply sorted_keys_unique; auto.
    now rewrite !sortObjKeys_perm.
  - exact Hsa.
  - apply sortObjKeys_perm.
  - intros k. apply assoc_sortObjKeys.
Qed.

(* =============================================================== *)
(** ** The signing base string *)


(* =============================================================== *)
(** ** Construction *)







(* =============================================================== *)
(** ** The redirect URL *)

Lemma append_assoc (a b c : string) : (a ++ b) ++ c = a ++ (b ++ c).
Proof. induction a as [|x a IH]; simpl; [reflexivity|now rewrite IH]. Qed.



(* ================================================================= *)
(** ** The sample deployment, run *)

Example key_order_by_character_code :
  key_lt "Z" "a" /\ key_lt "a" "ab" /\ key_lt "app_id" "attributes".
Proof. repeat split. Qed.

Example strip_trailing_newline_once :
  strip_trailing_newline ("KEY" ++ String (ascii_of_nat 10) "") = "KEY"
  /\ strip_trailing_newline "KEY" = "KEY".
Proof. split; reflexivity. Qed.

Example Sample_constructor : constructor Sample.config = Ok Sample.client.
Proof. reflexivity. Qed.

Example Sample_redirect_url :
  createRedirectURL Sample.client Sample.authRequest =
  "https://myinfosg.api.gov.sg/gov/v3/authorise?purpose=demo&attributes=name%2Cemail&state=xyz&client_id=APP-1&redirect_uri=https%3A%2F%2Fapp.example%2Fcb&sp_esvcId=SVC1".
Proof. reflexivity. Qed.

Example Sample_getPerson :
  fst (getPerson Sample.Date_now Sample.random_byte Sample.sign
         Sample.verifyJwt Sample.network Sample.client "code" ["name"]
         initial_world)
  = Ok (VStr "T1", Sample.person).
Proof. vm_compute. reflexivity. Qed.

Example Sample_getPerson_without_token :
  fst (getPerson Sample.Date_now Sample.random_byte Sample.sign
         Sample.verifyJwt Sample.network_without_token Sample.client "code"
         ["name"] initial_world)
  = Throw (Error "The following error occurred while decoding the token from MyInfo: JsonWebTokenError: jwt must be provided").
Proof. vm_compute. reflexivity. Qed.

Lemma Sample_verifyJwt_algorithms :
  forall token key algorithms decoded,
    Sample.verifyJwt (VStr token) key algorithms = Ok decoded ->
    exists alg, Sample.jws_alg token = Some alg /\ In alg algorithms.
Proof.
  intros token key algorithms decoded. unfold Sample.verifyJwt.
  destruct (Sample.jws_alg token) as [alg|]; [|discriminate].
  destruct (existsb (String.eqb alg) algorithms) eqn:E; [|discriminate].
  intros _. exists alg. split; [reflexivity|].
  apply existsb_exists in E. destruct E as [x [Hin Hx]].
  apply String.eqb_eq in Hx. now subst.
Qed.

Lemma Sample_params_NoDup :
  NoDup (keys [("nonce", "chosen-by-caller"); ("attributes", "name")]).
Proof.
  repeat constructor; simpl; intuition discriminate.
Qed.

(* ================================================================= *)
(** ** Instances of the theorems, and inputs on which the specification's
       wording fails *)

(** C2 at the mappings [{b: 2, a: 1}] and [{a: 1, b: 2}]. *)
Lemma sortObjKeys_canonical_witness :
  NoDup (keys [("b", "2"); ("a", "1")])
  /\ NoDup (keys [("a", "1"); ("b", "2")])
  /\ sortObjKeys [("b", "2"); ("a", "1")]
     = sortObjKeys [("a", "1"); ("b", "2")].
Proof.
  assert (Ha : NoDup (keys [("b", "2"); ("a", "1")]))
    by (repeat constructor; simpl; intuition discriminate).
  assert (Hb : NoDup (keys [("a", "1"); ("b", "2")]))
    by (repeat constructor; simpl; intuition discriminate).
  split; [exact Ha|]. split; [exact Hb|].
  apply (sortObjKeys_canonical _ _ Ha Hb).
  apply perm_swap.
Defined.




(** C4 at the sample verifier and the HS256 token [H1]. *)
Lemma extractUinFin_outcomes_witness :
  (forall token key algorithms decoded,
      Sample.verifyJwt (VStr token) key algorithms = Ok decoded ->
      exists alg, Sample.jws_alg token = Some alg /\ In alg algorithms)
  /\ exists e,
       Sample.verifyJwt (VStr "H1") (myInfoPublicKey Sample.client) ["RS256"]
       = Throw e
       /\ _extractUinFin Sample.verifyJwt Sample.client (VStr "H1") = Throw e.
Proof.
  split; [exact Sample_verifyJwt_algorithms|].
  refine (proj1
            (extractUinFin_outcomes Sample.verifyJwt Sample.jws_alg
               Sample_verifyJwt_algorithms Sample.client (VStr "H1"))
            "H1" "HS256" eq_refl eq_refl _).
  discriminate.
Defined.

(** C5 fails as worded: a 2xx answer whose body has no [access_token]
    makes the exchange resolve, with [undefined], instead of failing. *)
Lemma getAccessToken_missing_token_counterexample :
  (forall n r,
      Sample.network_without_token n r
      = Response 200 (VObj [("token_type", VStr "Bearer")]))
  /\ assoc "access_token" [("token_type", VStr "Bearer")] = None
  /\ fst (_getAccessToken Sample.Date_now Sample.random_byte Sample.sign
            Sample.network_without_token Sample.client "code" initial_world)
     = Ok VUndefined
  /\ forall e,
       fst (_getAccessToken Sample.Date_now Sample.random_byte Sample.sign
              Sample.network_without_token Sample.client "code"
              initial_world)
       <> Throw e.
Proof.
  split; [reflexivity|]. split; [reflexivity|].
  split; [vm_compute; reflexivity|].
  intros e. vm_compute. discriminate.
Qed.

(** C5 at the sample: the token endpoint answers 200 with the token [T1]. *)
Lemma getAccessToken_outcomes_witness :
  Sample.sign (clientPrivateKey Sample.client)
    (baseString Sample.client POST (postUrl Sample.client)
       (postParams Sample.client "code")
       (timestamp_at Sample.Date_now initial_world)
       (nonce_at Sample.random_byte initial_world))
  = Ok "c2lnbmF0dXJl"
  /\ fst (_getAccessToken Sample.Date_now Sample.random_byte Sample.sign
            Sample.network Sample.client "code" initial_world)
     = Ok (VStr "T1").
Proof.
  split; [reflexivity|].
  refine (proj1
            (proj2 (proj2 (proj2 (proj2 (proj2
               (proj2
                  (getAccessToken_outcomes Sample.Date_now Sample.random_byte
                     Sample.sign Sample.network Sample.client "code"
                     initial_world)
                  "c2lnbmF0dXJl" eq_refl)))))
               200%Z [("access_token", VStr "T1")] eq_refl eq_refl)
            "T1" eq_refl).
Defined.




(* ================================================================= *)
(** ** Further properties: construction *)



Lemma constructor_Ok_fields config c :
  constructor config = Ok c ->
  c = {| clientId := Config.clientId config;
         clientSecret := Config.clientSecret config;
         redirectEndpoint := Config.redirectEndpoint config;
         clientPrivateKey :=
           strip_trailing_newline
             (key_toString (Config.clientPrivateKey config));
         myInfoPublicKey :=
           strip_trailing_newline
             (key_toString (Config.myInfoPublicKey config));
         singpassEserviceId := Config.singpassEserviceId config;
         mode := match Config.mode config with
                 | Some m => if str_truthy m then m else "prod"
                 | None => "prod"
                 end;
         baseAPIUrl :=
           js_or (obj_lookup BASE_URL
                    match Config.mode config with
                    | Some m => if str_truthy m then m else "prod"
                    | None => "prod"
                    end)
                 (obj_lookup BASE_URL "prod") |}.
Proof.
  unfold constructor. destruct (_ || _); [discriminate|].
  intros H. injection H as <-. reflexivity.
Qed.


(** X2. A constructed client carries the client id, the secret, the
    redirect endpoint and the e-service id of the configuration unchanged;
    its mode is the configured one, or prod when none or the empty string
    was given; and for each of the three modes of [MyInfoMode] its base API
    URL is the entry of [BASE_URL] for that mode. *)
Theorem constructor_copies_configuration config c :
  constructor config = Ok c ->
  clientId c = Config.clientId config
  /\ clientSecret c = Config.clientSecret config
  /\ redirectEndpoint c = Config.redirectEndpoint config
  /\ singpassEserviceId c = Config.singpassEserviceId config
  /\ (Config.mode config = None \/ Config.mode config = Some "" ->
      mode c = "prod")
  /\ (forall m, Config.mode config = Some m -> m <> "" -> mode c = m)
  /\ (forall m : MyInfoMode,
        Config.mode config = Some (MyInfoMode_value m) ->
        mode c = MyInfoMode_value m
        /\ assoc (MyInfoMode_value m) BASE_URL = Some (baseAPIUrl c)).
Proof.
  intros H. apply constructor_Ok_fields in H. subst c.
  cbn [clientId clientSecret redirectEndpoint singpassEserviceId mode
       baseAPIUrl].
  repeat split.
  - intros [->| ->]; reflexivity.
  - intros m -> Hm. apply String.eqb_neq in Hm. unfold str_truthy.
    now rewrite Hm.
  - rewrite H. now destruct m.
  - rewrite H. now destruct m.
Qed.

Lemma Object_prototype_truthy k v :
  assoc k Object_prototype = Some v -> truthy v = true.
Proof.
  unfold Object_prototype. cbn [assoc].
  repeat match goal with
    | |- (if ?b then _ else _) = _ -> _ =>
        destruct b; [intros H; injection H as <-; reflexivity|]
    end.
  discriminate.
Qed.

Lemma BASE_URL_own k v :
  assoc k BASE_URL = Some v -> exists u, v = VStr u /\ In u base_urls.
Proof.
  unfold BASE_URL, base_urls. cbn [assoc MyInfoMode_value].
  repeat match goal with
    | |- (if ?b then _ else _) = _ -> _ =>
        destruct b;
        [intros H; injection H as <-; eexists; split;
         [reflexivity|simpl; tauto]|]
    end.
  discriminate.
Qed.

Lemma resolved_base_url m :
  truthy (js_or (obj_lookup BASE_URL m) (obj_lookup BASE_URL "prod")) = true
  /\ (assoc m Object_prototype = None ->
      exists u,
        js_or (obj_lookup BASE_URL m) (obj_lookup BASE_URL "prod") = VStr u
        /\ In u base_urls)
  /\ (assoc m BASE_URL = None ->
      forall v, assoc m Object_prototype = Some v ->
      js_or (obj_lookup BASE_URL m) (obj_lookup BASE_URL "prod") = v).
Proof.
  unfold obj_lookup at 1 3 5.
  destruct (assoc m BASE_URL) as [v|] eqn:Eown.
  - destruct (BASE_URL_own _ _ Eown) as [u [-> Hu]].
    assert (Ht : truthy (VStr u) = true).
    { simpl in Hu. destruct Hu as [<-|[<-|[<-|[]]]]; reflexivity. }
    unfold js_or. rewrite Ht. repeat split.
    + exact Ht.
    + intros _. now exists u.
    + discriminate.
  - destruct (assoc m Object_prototype) as [v|] eqn:Eproto.
    + assert (Ht := Object_prototype_truthy _ _ Eproto).
      unfold js_or. rewrite Ht. repeat split.
      * exact Ht.
      * discriminate.
      * intros _ v' H. now injection H.
    + repeat split.
      * intros _. eexists. split; [reflexivity|]. simpl. tauto.
      * discriminate.
Qed.

(** X3. The base API URL of a constructed client is never undefined or
    empty, and its mode is never empty. When the mode names no property
    inherited from [Object.prototype] the base API URL is one of the three
    URLs of [BASE_URL]; when it names one and is none of dev, stg, prod, the
    base API URL is that inherited value and not a URL. *)
Theorem constructor_base_url_defined config c :
  constructor config = Ok c ->
  truthy (baseAPIUrl c) = true
  /\ mode c <> ""
  /\ (assoc (mode c) Object_prototype = None ->
      exists u, baseAPIUrl c = VStr u /\ In u base_urls)
  /\ (assoc (mode c) BASE_URL = None ->
      forall v, assoc (mode c) Object_prototype = Some v -> baseAPIUrl c = v).
Proof.
  intros H. apply constructor_Ok_fields in H. subst c.
  cbn [mode baseAPIUrl].
  set (m := match Config.mode config with
            | Some m => if str_truthy m then m else "prod"
            | None => "prod"
            end).
  destruct (resolved_base_url m) as [Ht [Hs Hi]].
  repeat split; try assumption.
  subst m. destruct (Config.mode config) as [m|]; [|discriminate].
  destruct (str_truthy m) eqn:E; [|discriminate].
  intros ->. discriminate.
Qed.

(* ================================================================= *)
(** ** Further properties: the redirect URL *)

Lemma string_forall_app p a b :
  string_forall p (a ++ b) = string_forall p a && string_forall p b.
Proof.
  induction a as [|x r IH]; [reflexivity|].
  cbn [append string_forall]. now rewrite IH, andb_assoc.
Qed.

Lemma count_char_app c a b :
  count_char c (a ++ b) = count_char c a + count_char c b.
Proof.
  induction a as [|x r IH]; [reflexivity|].
  cbn [append count_char]. rewrite IH. lia.
Qed.

Lemma qs_encode_char_escaped c :
  string_forall (fun x => qs_unreserved x || Ascii.eqb x "%"%char)
    (if qs_unreserved c then String c EmptyString else hexTable c) = true.
Proof.
  destruct c as [[] [] [] [] [] [] [] []]; vm_compute; reflexivity.
Qed.

Lemma qs_encode_escaped s :
  string_forall (fun x => qs_unreserved x || Ascii.eqb x "%"%char)
    (qs_encode s) = true.
Proof.
  induction s as [|c r IH]; [reflexivity|].
  cbn [qs_encode]. now rewrite string_forall_app, qs_encode_char_escaped, IH.
Qed.

Lemma qs_encode_query_char s : string_forall query_char (qs_encode s) = true.
Proof.
  assert (H := qs_encode_escaped s).
  induction (qs_encode s) as [|x r IH]; [reflexivity|].
  cbn [string_forall] in *. apply andb_true_iff in H. destruct H as [Hx Hr].
  rewrite (IH Hr), andb_true_r. unfold query_char.
  apply orb_true_iff in Hx. destruct Hx as [-> | ->]; [reflexivity|].
  now rewrite orb_true_r.
Qed.

Lemma qs_encode_no_separator s :
  count_char "&"%char (qs_encode s) = 0 /\ count_char "="%char (qs_encode s) = 0.
Proof.
  split; apply (string_forall_count _ _ _ (qs_encode_escaped s)); reflexivity.
Qed.

Lemma createRedirectURL_query this req :
  createRedirectURL this req =
    js_toString (baseAPIUrl this) ++ "/authorise?"
      ++ ("purpose=" ++ qs_encode (AuthRequest.purpose req)
      ++ "&attributes="
      ++ qs_encode (Array_join (AuthRequest.requestedAttributes req))
      ++ "&state=" ++ qs_encode (AuthRequest.relayState req)
      ++ "&client_id=" ++ qs_encode (clientId this)
      ++ "&redirect_uri="
      ++ qs_encode (nullish (AuthRequest.redirectEndpoint req)
                      (redirectEndpoint this))
      ++ "&sp_esvcId="
      ++ qs_encode (nullish (AuthRequest.singpassEserviceId req)
                      (singpassEserviceId this))).
Proof.
  unfold createRedirectURL, qs_stringify.
  cbn [map fst snd String.concat Endpoint_value].
  change (qs_encode "purpose") with "purpose".
  change (qs_encode "attributes") with "attributes".
  change (qs_encode "state") with "state".
  change (qs_encode "client_id") with "client_id".
  change (qs_encode "redirect_uri") with "redirect_uri".
  change (qs_encode "sp_esvcId") with "sp_esvcId".
  repeat rewrite append_assoc. reflexivity.
Qed.

(** X12. Whatever text the request and the client hold, the query of the
    redirect URL consists of unreserved characters, percent signs and the
    two separators only, and it has exactly five ampersands and six equals
    signs: no value can add, remove or split a parameter, and a parameter
    with an empty value (an empty attribute list, say) is still present. *)
Theorem createRedirectURL_query_safe this req :
  exists query,
    createRedirectURL this req =
      js_toString (baseAPIUrl this) ++ "/authorise?" ++ query
    /\ string_forall query_char query = true
    /\ count_char "&"%char query = 5
    /\ count_char "="%char query = 6.
Proof.
  eexists. split; [apply createRedirectURL_query|].
  split; [|split].
  - repeat rewrite string_forall_app. rewrite !qs_encode_query_char.
    reflexivity.
  - repeat rewrite count_char_app.
    rewrite !(proj1 (qs_encode_no_separator _)). reflexivity.
  - repeat rewrite count_char_app.
    rewrite !(proj2 (qs_encode_no_separator _)). reflexivity.
Qed.

(* ================================================================= *)
(** ** Instances of the further properties on the sample deployment *)


(** X2 at the same configuration, whose mode is stg. *)
Lemma constructor_copies_configuration_witness :
  exists c,
    constructor Sample.config_pem = Ok c
    /\ clientId c = "APP-1"
    /\ mode c = "stg"
    /\ assoc "stg" BASE_URL = Some (baseAPIUrl c).
Proof.
  eexists. split; [reflexivity|].
  pose proof (constructor_copies_configuration Sample.config_pem _ eq_refl)
    as [H1 [_ [_ [_ [_ [_ H7]]]]]].
  split; [exact H1|].
  destruct (H7 Staging eq_refl) as [Hm Hu].
  split; [exact Hm|exact Hu].
Defined.

(** X3 at the mode [valueOf], which names an inherited property. *)
Lemma constructor_base_url_defined_witness :
  exists c,
    constructor (Sample.config_with_mode "valueOf") = Ok c
    /\ truthy (baseAPIUrl c) = true
    /\ baseAPIUrl c = VFun "valueOf".
Proof.
  eexists. split; [reflexivity|].
  pose proof (constructor_base_url_defined
                (Sample.config_with_mode "valueOf") _ eq_refl)
    as [Ht [_ [_ Hi]]].
  split; [exact Ht|]. exact (Hi eq_refl (VFun "valueOf") eq_refl).
Defined.


(** X5 at the sample: the person endpoint answers 200 with the record. *)
Lemma sendPersonRequest_outcomes_witness :
  exists r,
    sent (snd (_sendPersonRequest Sample.Date_now Sample.random_byte
                 Sample.sign Sample.verifyJwt Sample.network Sample.client
                 (VStr "T1") ["name"; "email"] (Some "S0000001X")
                 initial_world))
    = [r]
    /\ req_url r = "https://myinfosg.api.gov.sg/gov/v3/person/S0000001X/"
    /\ req_query r = Some "client_id=APP-1&attributes=name%2Cemail".
Proof.
  destruct (proj2 (sendPersonRequest_outcomes Sample.Date_now
                     Sample.random_byte Sample.sign Sample.verifyJwt
                     Sample.network Sample.client (VStr "T1")
                     ["name"; "email"] "S0000001X" initial_world)
              "c2lnbmF0dXJl" eq_refl)
    as [r [Hs [_ [Hu [Hq _]]]]].
  exists r. split; [exact Hs|]. split; [exact Hu|exact Hq].
Defined.

(** X7 and X8 at the token endpoint that answers without a token. *)
Lemma getPerson_error_shape_witness :
  fst (getPerson Sample.Date_now Sample.random_byte Sample.sign
         Sample.verifyJwt Sample.network_without_token Sample.client "code"
         ["name"] initial_world)
  = Throw (Error "The following error occurred while decoding the token from MyInfo: JsonWebTokenError: jwt must be provided")
  /\ err_name
       (Error "The following error occurred while decoding the token from MyInfo: JsonWebTokenError: jwt must be provided")
     = "Error".
Proof.
  assert (H : fst (getPerson Sample.Date_now Sample.random_byte Sample.sign
                     Sample.verifyJwt Sample.network_without_token
                     Sample.client "code" ["name"] initial_world)
              = Throw (Error "The following error occurred while decoding the token from MyInfo: JsonWebTokenError: jwt must be provided"))
    by (vm_compute; reflexivity).
  split; [exact H|].
  exact (proj1 (getPerson_error_shape Sample.Date_now Sample.random_byte
                  Sample.sign Sample.verifyJwt Sample.network_without_token
                  Sample.client "code" ["name"] initial_world _ H)).
Defined.

Lemma getPerson_missing_token_stage_witness :
  length (sent (snd (getPerson Sample.Date_now Sample.random_byte
                       Sample.sign Sample.verifyJwt
                       Sample.network_without_token Sample.client "code"
                       ["name"] initial_world))) = 1
  /\ fst (getPerson Sample.Date_now Sample.random_byte Sample.sign
            Sample.verifyJwt Sample.network_without_token Sample.client
            "code" ["name"] initial_world)
     = Throw (Error ("The following error occurred while decoding the token from MyInfo: "
                       ++ err_toString
                            (mkJsError "JsonWebTokenError"
                               "jwt must be provided"))).
Proof.
  rewrite (getPerson_missing_token_stage Sample.Date_now Sample.random_byte
             Sample.sign Sample.verifyJwt Sample.network_without_token
             Sample.client "code" ["name"] initial_world
             "c2lnbmF0dXJl" 200%Z [("token_type", VStr "Bearer")]
             (mkJsError "JsonWebTokenError" "jwt must be provided")
             eq_refl eq_refl eq_refl eq_refl eq_refl).
  split; reflexivity.
Defined.

(** X9 at a token endpoint that answers 204 with no body. *)
Lemma getAccessToken_body_outcomes_witness :
  exists e,
    fst (_getAccessToken Sample.Date_now Sample.random_byte Sample.sign
           Sample.network_null_body Sample.client "code" initial_world)
    = Throw e.
Proof.
  apply (proj1 (getAccessToken_body_outcomes Sample.Date_now
                  Sample.random_byte Sample.sign Sample.network_null_body
                  Sample.client "code" initial_world "c2lnbmF0dXJl" 204%Z
                  VNull eq_refl eq_refl eq_refl)).
  right. reflexivity.
Defined.

(** X10 at the person parameters listed in both orders. *)
Lemma signing_ignores_parameter_order_witness :
  NoDup (keys [("client_id", "APP-1"); ("attributes", "name")])
  /\ Permutation [("client_id", "APP-1"); ("attributes", "name")]
       [("attributes", "name"); ("client_id", "APP-1")]
  /\ _generateAuthHeader Sample.Date_now Sample.random_byte Sample.sign
       Sample.client GET "https://example/"
       [("client_id", "APP-1"); ("attributes", "name")] initial_world
     = _generateAuthHeader Sample.Date_now Sample.random_byte Sample.sign
         Sample.client GET "https://example/"
         [("attributes", "name"); ("client_id", "APP-1")] initial_world.
Proof.
  assert (Hn : NoDup (keys [("client_id", "APP-1"); ("attributes", "name")]))
    by (repeat constructor; simpl; intuition discriminate).
  assert (Hp : Permutation [("client_id", "APP-1"); ("attributes", "name")]
                 [("attributes", "name"); ("client_id", "APP-1")])
    by apply perm_swap.
  split; [exact Hn|]. split; [exact Hp|].
  exact (proj2 (proj2
           (signing_ignores_parameter_order Sample.Date_now
              Sample.random_byte Sample.sign Sample.client GET
              "https://example/" _ _ initial_world Hn Hp))).
Defined.

(** X11 at a caller mapping that brings its own [nonce]: one entry of its
    own, five signed. *)
Lemma signed_set_size_witness :
  NoDup (keys [("nonce", "chosen-by-caller"); ("attributes", "name")])
  /\ length (authParams Sample.client
               [("nonce", "chosen-by-caller"); ("attributes", "name")]
               "1700000000000" "AA==")
     = 4 + length
             (own_params
                [("nonce", "chosen-by-caller"); ("attributes", "name")]).
Proof.
  split; [exact Sample_params_NoDup|].
  exact (proj1 (proj2
           (signed_set_size Sample.client _ "1700000000000" "AA=="
              Sample_params_NoDup))).
Defined.

(** X14 at the sample run of [getPerson]. *)
Lemma getPerson_success_verified_witness :
  fst (getPerson Sample.Date_now Sample.random_byte Sample.sign
         Sample.verifyJwt Sample.network Sample.client "code" ["name"]
         initial_world)
  = Ok (VStr "T1", Sample.person)
  /\ Sample.jws_alg "T1" = Some "RS256".
Proof.
  assert (H : fst (getPerson Sample.Date_now Sample.random_byte Sample.sign
                     Sample.verifyJwt Sample.network Sample.client "code"
                     ["name"] initial_world)
              = Ok (VStr "T1", Sample.person))
    by (vm_compute; reflexivity).
  split; [exact H|].
  destruct (getPerson_success_verified Sample.Date_now Sample.random_byte
              Sample.sign Sample.verifyJwt Sample.network Sample.jws_alg
              Sample_verifyJwt_algorithms Sample.client "code" ["name"]
              initial_world (VStr "T1") Sample.person H)
    as [w1 [props [uinFin [_ [_ [_ [_ [_ Halg]]]]]]]].
  exact (Halg "T1" eq_refl).
Defined.
